(** * Neuromaton: the finite-automaton engine

    A shallow embedding of [neuromaton/automata/finite_automaton.py] and
    [neuromaton/automata/error.py].

    The automaton is a [networkx.MultiDiGraph] whose edges are keyed by a
    symbol and carry, under the key [TRANSITION], the handler that runs when
    the symbol is fired.  Python dictionaries keep insertion order and the
    driver iterates over one of them, so they are association lists here.
    Exceptions are a sum type: a call returns a value or raises.  The
    methods work on a live object: [add_transition_run] and [__call__] say
    what they leave behind also when they raise.

    What lies outside the source is a parameter, the [Host]: the code of the
    user, the attributes that networkx and [object] give the instance, and
    what networkx makes of the keyword arguments of the constructor.  The
    names that the engine itself looks up on the instance ([add_transition],
    [add_edge], [adj], those that networkx uses) are taken for what the
    classes define; a callable registered under such a name would replace
    them, and the statements that depend on it exclude that case with [plain]
    and [unshadowed]. *)

From Stdlib Require Import ZArith List String Ascii Bool Arith Lia.
Import ListNotations.
Open Scope string_scope.
Open Scope list_scope.

Set Implicit Arguments.
Set Warnings "-register-all".

(** ** Python values *)

(** The hashable values that serve as states, symbols and edge keys:
    integers, strings, functions (compared by identity: a name and a code
    pointer) and tuples of such.  [None], floats and booleans are left out:
    networkx treats [None] specially both as a node and as an edge key. *)
Inductive pyval : Type :=
| PInt (z : Z)
| PStr (s : string)
| PFunc (name : string) (code : nat)
| PTuple (items : list pyval).

(** Keyword arguments and attribute dictionaries given by a caller. *)
Definition kwargs : Type := list (string * pyval).

(** What a transition descriptor may hold: a hashable value or a dict. *)
Inductive pyobj : Type :=
| Val (v : pyval)
| Dict (d : kwargs).

Class EqDec (A : Type) : Type :=
  eq_dec : forall x y : A, {x = y} + {x <> y}.

Fixpoint pyval_eq_dec (a b : pyval) {struct a} : {a = b} + {a <> b}.
Proof.
  decide equality.
  - apply Z.eq_dec.
  - apply string_dec.
  - apply Nat.eq_dec.
  - apply string_dec.
  - apply (list_eq_dec pyval_eq_dec).
Defined.

#[export] Instance pyval_EqDec : EqDec pyval := pyval_eq_dec.
#[export] Instance string_EqDec : EqDec string := string_dec.

(** [bool(v)] *)
Definition truthy (v : pyval) : bool :=
  match v with
  | PInt z => negb (Z.eqb z 0)
  | PStr s => negb (String.eqb s "")
  | PFunc _ _ => true
  | PTuple items => match items with [] => false | _ => true end
  end.

(** ** Exceptions *)

(** An argument of an exception object: a message obtained by applying a
    format string to values, or a plain value. *)
Inductive exc_arg : Type :=
| Message (template : string) (values : list pyval)
| Object (v : pyval).

(** The builtin exceptions the module can run into, the exceptions of
    [error.py] (by class name and constructor arguments), and whatever code
    outside the engine raises. *)
Inductive exn : Type :=
| KeyError
| TypeError
| ValueError
| AttributeError
| AutomatonError (cls : string) (args : list exc_arg)
| UserError (tag : nat).

Inductive result (A : Type) : Type :=
| Ok (x : A)
| Raise (e : exn).
Arguments Ok {A} x.
Arguments Raise {A} e.

Definition bind {A B : Type} (c : result A) (k : A -> result B) : result B :=
  match c with
  | Ok x => k x
  | Raise e => Raise e
  end.

Notation "x <- c ;; k" := (bind c (fun x => k))
  (at level 61, c at next level, right associativity).
Notation "' p <- c ;; k" := (bind c (fun x => let 'p := x in k))
  (at level 61, p pattern, c at next level, right associativity).

(** ** Insertion-ordered dictionaries *)

Section Dict.
Context {K V : Type} `{EqDec K}.

(** [d.get(k)] *)
Fixpoint dict_get (d : list (K * V)) (k : K) : option V :=
  match d with
  | [] => None
  | (k', v) :: rest => if eq_dec k' k then Some v else dict_get rest k
  end.

(** [d[k] = v]: an existing key keeps its place, a new one goes last. *)
Fixpoint dict_set (d : list (K * V)) (k : K) (v : V) : list (K * V) :=
  match d with
  | [] => [(k, v)]
  | (k', v') :: rest =>
      if eq_dec k' k then (k', v) :: rest else (k', v') :: dict_set rest k v
  end.

(** [k in d] *)
Definition dict_mem (d : list (K * V)) (k : K) : bool :=
  match dict_get d k with Some _ => true | None => false end.

Definition dict_keys (d : list (K * V)) : list K := map fst d.

(** [d.update(items)] *)
Definition dict_update (d items : list (K * V)) : list (K * V) :=
  fold_left (fun acc kv => dict_set acc (fst kv) (snd kv)) items d.
End Dict.

(** ** error.py *)

Module Error.

(** Number of [%s] conversions in a format string. *)
Fixpoint placeholders (s : string) : nat :=
  match s with
  | String "%" (String "s" rest) => S (placeholders rest)
  | String _ rest => placeholders rest
  | EmptyString => 0
  end.

(** [template % x]: a tuple supplies one value per conversion, anything
    else is a single value; a count that does not match is a [TypeError]. *)
Definition percent (template : string) (x : pyval) : result exc_arg :=
  let values := match x with PTuple items => items | _ => [x] end in
  if Nat.eqb (List.length values) (placeholders template)
  then Ok (Message template values)
  else Raise TypeError.

Definition InvalidStartingState (state : pyval) : result exn :=
  msg <- percent "%s is not a valid starting state." state ;;
  Ok (AutomatonError "InvalidStartingState" [msg]).

Definition InvalidAcceptingStates (states : pyval) : result exn :=
  msg <- percent "One or more invalid accepting states: %s" states ;;
  Ok (AutomatonError "InvalidAcceptingStates" [msg]).

(** The source writes [super().__init__('...%s...%s' % start, symbol)]:
    the format is applied to [start] alone and [symbol] becomes a second
    argument of the exception. *)
Definition IllegalTransition (start symbol : pyval) : result exn :=
  msg <- percent "Illegal transition %s from starting node %s" start ;;
  Ok (AutomatonError "IllegalTransition" [msg; Object symbol]).

End Error.

(** ** The transition graph (networkx.MultiDiGraph) *)

Definition TRANSITION : string := "__TRANSITION_FUNCTION".

(** What [functools.partial] wraps: a plain function object, or a method
    looked up through the instance and so bound to it: a method of a
    subclass, [FiniteAutomaton._default], or another callable that the class
    has by that name ([add_transition] itself, what networkx defines). *)
Inductive method : Type :=
| UserMethod (code : nat)
| Default
| Inherited (name : string).

Inductive callee : Type :=
| Function (name : string) (code : nat)
| Bound (m : method).

(** [functools.partial(func, [self,] first_state, next_state)] *)
Record partial : Type := Partial {
  p_func : callee;
  p_self : bool;
  p_first : pyval;
  p_next : pyval
}.

(** A value of an edge's attribute dictionary. *)
Inductive attr : Type :=
| Value (v : pyval)
| Handler (p : partial).

Definition datadict : Type := list (string * attr).
Definition keydict : Type := list (pyval * datadict).
Definition nbrdict : Type := list (pyval * keydict).
(** networkx keeps [_node], [_succ] and [_pred] over one key set; the model
    keeps the successor map and reads the node set off its keys. *)
Definition adjacency : Type := list (pyval * nbrdict).

(** The key dictionary between two nodes and the data of an edge. *)
Definition graph_keys (g : adjacency) (u v : pyval) : option keydict :=
  match dict_get g u with
  | None => None
  | Some nbrs => dict_get nbrs v
  end.

Definition graph_edge (g : adjacency) (u v key : pyval) : option datadict :=
  match graph_keys g u v with
  | None => None
  | Some keys => dict_get keys key
  end.

(** [g[u][v] = keys], where [g[u]] starts empty when [u] is new. *)
Definition graph_put (g : adjacency) (u v : pyval) (keys : keydict) : adjacency :=
  dict_set g u (dict_set (match dict_get g u with Some n => n | None => [] end) v keys).

(** [if n not in self._succ: self._succ[n] = {}] *)
Definition ensure_node (g : adjacency) (n : pyval) : adjacency :=
  if dict_mem g n then g else dict_set g n [].

(** [MultiDiGraph.add_edge(u, v, key, **attr)] for a key other than [None]:
    both end points become nodes, and the attributes are merged into the
    data of the edge [(u, v, key)], which is created when absent. *)
Definition add_edge (u v key : pyval) (attr : kwargs) (g : adjacency) : adjacency :=
  let g := ensure_node g u in
  let g := ensure_node g v in
  let new := map (fun kv => (fst kv, Value (snd kv))) attr in
  let nbrs := match dict_get g u with Some n => n | None => [] end in
  match dict_get nbrs v with
  | Some keys =>
      let data := match dict_get keys key with Some d => d | None => [] end in
      dict_set g u (dict_set nbrs v (dict_set keys key (dict_update data new)))
  | None =>
      dict_set g u (dict_set nbrs v [(key, dict_update [] new)])
  end.

(** ** The automaton *)

(** [__dict__] holds the attributes that [setattr] put on the instance;
    [current] is kept apart because the driver reads it. *)
Record automaton : Type := Automaton {
  adj : adjacency;
  current : pyval;
  __dict__ : list (string * pyval)
}.

Definition nodes (self : automaton) : list pyval := dict_keys (adj self).

(** The instance before any transition is loaded: an empty graph, and
    [self.current = initial_state]. *)
Definition blank (initial_state : pyval) : automaton :=
  {| adj := []; current := initial_state; __dict__ := [] |}.

Definition set_adj (self : automaton) (g : adjacency) : automaton :=
  {| adj := g; current := current self; __dict__ := __dict__ self |}.

Definition set_current (self : automaton) (v : pyval) : automaton :=
  {| adj := adj self; current := v; __dict__ := __dict__ self |}.

(** Output of [print]. *)
Inductive line : Type :=
| Text (s : string)
| Moving (current_state next_state : pyval)
| Attributes (attrs : kwargs).

(** A positional argument handed to user code. *)
Inductive parg : Type :=
| ArgSelf
| ArgVal (v : pyval).

(** What the driver does that can be observed from outside. *)
Inductive event : Type :=
| Called (h : attr) (payload : kwargs)
| Printed (l : line).

(** What a call into code outside the engine has done when it is over:
    where it has left [current], what it has printed, and the exception it
    has raised, if any. *)
Record effect : Type := Effect {
  left_current : pyval;
  output : list line;
  raised : option exn
}.

(** An attribute that the instance has from networkx or from Python's
    [object]: whether its value is truthy and whether it can be called. *)
Record library_attr : Type := LibraryAttr {
  lib_truthy : bool;
  lib_callable : bool
}.

(** The surroundings of the engine.
    - [methods]: the methods that a subclass defines, by name, each with its
      code.
    - [user_code]: what a function or method of the user does when called
      with positional and keyword arguments on the automaton.
    - [library]: the attributes that the instance has from networkx and
      from Python's [object], by name ([add_edge], [has_edge], [adj],
      [nodes], [__class__], ...), as they are once the graph has an edge,
      which is when [add_transition] asks for them.
    - [library_call]: what calling such an attribute, or a method of
      [FiniteAutomaton] other than [_default], does as a handler.
    - [add_edge_params]: the names of the positional parameters of
      [add_edge] in the installed networkx.
    - [networkx_init]: the graph that [MultiDiGraph.__init__] makes of the
      keyword arguments of the constructor (its [incoming_graph_data]), or
      the exception it raises.
    Code called as a handler runs while the driver iterates over the graph:
    it prints, leaves [current] at some value and returns or raises, and
    does not restructure the graph or put attributes on the instance. *)
Class Host : Type := {
  methods : string -> option nat;
  user_code : nat -> list parg -> kwargs -> automaton -> effect;
  library : string -> option library_attr;
  library_call : string -> list parg -> kwargs -> automaton -> effect;
  add_edge_params : list string;
  networkx_init : kwargs -> result adjacency
}.

Section Engine.
Context `{Host}.

(** What attribute lookup on the instance gives: a value stored on the
    instance, a method of the class bound to the instance, or an attribute
    that comes from the library. *)
Inductive member : Type :=
| Data (v : pyval)
| BoundMethod (m : method)
| Library (name : string) (a : library_attr).

(** The methods that [FiniteAutomaton] defines besides [_default]. *)
Definition own_methods : list string := ["add_transition"; "__call__"; "__init__"].

(** Lookup in the class: a subclass comes before [FiniteAutomaton], which
    comes before networkx and [object]. *)
Definition class_attr (name : string) : option member :=
  match methods name with
  | Some code => Some (BoundMethod (UserMethod code))
  | None =>
      if eq_dec name "_default" then Some (BoundMethod Default)
      else if in_dec string_dec name own_methods
           then Some (BoundMethod (Inherited name))
           else match library name with
                | Some a => Some (Library name a)
                | None => None
                end
  end.

(** [getattr(self, name, None)].  Attributes put on the instance shadow
    those of the class. *)
Definition getattr (self : automaton) (name : string) : option member :=
  if eq_dec name "current" then Some (Data (current self))
  else match dict_get (__dict__ self) name with
       | Some v => Some (Data v)
       | None => class_attr name
       end.

(** [setattr(self, name, v)] *)
Definition setattr (self : automaton) (name : string) (v : pyval) : automaton :=
  if eq_dec name "current" then set_current self v
  else {| adj := adj self; current := current self;
          __dict__ := dict_set (__dict__ self) name v |}.

Definition member_truthy (m : member) : bool :=
  match m with
  | Data v => truthy v
  | BoundMethod _ => true
  | Library _ a => lib_truthy a
  end.

(** The first argument of [functools.partial] must be callable. *)
Definition as_callee (m : member) : result callee :=
  match m with
  | Data (PFunc name code) => Ok (Function name code)
  | Data _ => Raise TypeError
  | BoundMethod b => Ok (Bound b)
  | Library name a =>
      if lib_callable a then Ok (Bound (Inherited name)) else Raise TypeError
  end.

(** A keyword argument that names a parameter the call already fills
    cannot be bound: Python raises [TypeError]. *)
Definition clashes (params : list string) (kw : kwargs) : bool :=
  existsb (fun kv => if in_dec string_dec (fst kv) params then true else false) kw.

(** The parameters of [_default] ahead of [**attrs]. *)
Definition default_params : list string := ["self"; "current_state"; "next_state"].

(** The parameters of [__call__] ahead of [**kwargs]. *)
Definition call_params : list string := ["self"; "symbol"].

(** [callable(symbol)].  The callables of the model are functions, which
    have a [__name__]; an object that can be called and has none (a
    [functools.partial]) is not among its values. *)
Definition callable (o : pyobj) : bool :=
  match o with
  | Val (PFunc _ _) => true
  | _ => false
  end.

(** [symbol.__name__] *)
Definition __name__ (o : pyobj) : result string :=
  match o with
  | Val (PFunc name _) => Ok name
  | _ => Raise AttributeError
  end.

(** [bool(o)] *)
Definition obj_truthy (o : pyobj) : bool :=
  match o with
  | Val v => truthy v
  | Dict d => match d with [] => false | _ => true end
  end.

(** [attrs or {}] *)
Definition attrs_or_empty (attrs : option pyobj) : pyobj :=
  match attrs with
  | Some o => if obj_truthy o then o else Dict []
  | None => Dict []
  end.

(** [first_state, next_state = states]: the right-hand side is iterated and
    must yield two items.  A string yields its characters, a dict its keys. *)
Definition unpack2 (states : pyobj) : result (pyval * pyval) :=
  match states with
  | Val (PTuple [a; b]) => Ok (a, b)
  | Val (PTuple _) => Raise ValueError
  | Val (PStr (String a (String b EmptyString))) =>
      Ok (PStr (String a EmptyString), PStr (String b EmptyString))
  | Val (PStr _) => Raise ValueError
  | Val (PInt _) => Raise TypeError
  | Val (PFunc _ _) => Raise TypeError
  | Dict d =>
      match dict_keys (dict_update [] d) with
      | [a; b] => Ok (PStr a, PStr b)
      | _ => Raise ValueError
      end
  end.

(** *** Calls on the live object

    A method works on the object it is called on: when it raises, what it
    has done to the object before stays.  An action takes the instance and
    gives the instance as it leaves it, with a value or an exception. *)
Definition action (A : Type) : Type := automaton -> automaton * result A.

Definition lift {A : Type} (r : result A) : action A := fun self => (self, r).

Definition get_self : action automaton := fun self => (self, Ok self).

Definition put_self (self' : automaton) : action unit := fun _ => (self', Ok tt).

Definition and_then {A B : Type} (c : action A) (k : A -> action B) : action B :=
  fun self =>
    match c self with
    | (self', Ok x) => k x self'
    | (self', Raise e) => (self', Raise e)
    end.

Notation "x <~ c ;; k" := (and_then c (fun x => k))
  (at level 61, c at next level, right associativity).
Notation "' p <~ c ;; k" := (and_then c (fun x => let 'p := x in k))
  (at level 61, p pattern, c at next level, right associativity).

(** An action as its caller sees it who drops the object when it raises. *)
Definition returned (c : action unit) (self : automaton) : result automaton :=
  match c self with
  | (self', Ok _) => Ok self'
  | (_, Raise e) => Raise e
  end.

(** The call [self.add_edge(first_state, next_state, key=key, **attrs)]:
    [attrs] must be a mapping and none of its keys may name a parameter that
    the call already fills, or the call does not start.  Then [add_edge]
    adds the end points, and hashes the key when it stores the edge. *)
Definition call_add_edge_run (first_state next_state : pyval) (key attrs : pyobj)
    : action unit :=
  fun self =>
    match attrs with
    | Dict d =>
        if clashes ("self" :: "key" :: add_edge_params) d
        then (self, Raise TypeError)
        else match key with
             | Val k =>
                 (set_adj self (add_edge first_state next_state k d (adj self)), Ok tt)
             | Dict _ =>
                 (set_adj self
                    (ensure_node (ensure_node (adj self) first_state) next_state),
                  Raise TypeError)
             end
    | Val _ => (self, Raise TypeError)
    end.

Definition call_add_edge (first_state next_state : pyval) (key attrs : pyobj)
    (self : automaton) : result automaton :=
  returned (call_add_edge_run first_state next_state key attrs) self.

(** [self[first_state][next_state][key][TRANSITION] = h] *)
Definition set_transition_run (first_state next_state key : pyval) (h : partial)
    : action unit :=
  fun self =>
    match dict_get (adj self) first_state with
    | None => (self, Raise KeyError)
    | Some nbrs =>
        match dict_get nbrs next_state with
        | None => (self, Raise KeyError)
        | Some keys =>
            match dict_get keys key with
            | None => (self, Raise KeyError)
            | Some data =>
                (set_adj self
                   (dict_set (adj self) first_state
                      (dict_set nbrs next_state
                         (dict_set keys key (dict_set data TRANSITION (Handler h))))),
                 Ok tt)
            end
        end
    end.

Definition set_transition (first_state next_state key : pyval) (h : partial)
    (self : automaton) : result automaton :=
  returned (set_transition_run first_state next_state key h) self.

(** [self._default], made the first argument of a partial. *)
Definition default_callee (self : automaton) : result callee :=
  match getattr self "_default" with
  | None => Raise AttributeError
  | Some d => as_callee d
  end.

(** [FiniteAutomaton.add_transition], on an instance whose [add_edge] is
    the method of networkx. *)
Definition add_transition_run (symbol states : pyobj) (attrs : option pyobj)
    : action unit :=
  let attrs := attrs_or_empty attrs in
  '(first_state, next_state) <~ lift (unpack2 states) ;;
  if callable symbol then
    symbol_name <~ lift (__name__ symbol) ;;
    self <~ get_self ;;
    _ <~ put_self (match symbol with
                   | Val f => setattr self symbol_name f
                   | Dict _ => self
                   end) ;;
    _ <~ call_add_edge_run first_state next_state (Val (PStr symbol_name)) attrs ;;
    self <~ get_self ;;
    match getattr self symbol_name with
    | None => lift (Raise AttributeError)
    | Some m =>
        f <~ lift (as_callee m) ;;
        set_transition_run first_state next_state (PStr symbol_name)
          (Partial f true first_state next_state)
    end
  else
    _ <~ call_add_edge_run first_state next_state symbol attrs ;;
    self <~ get_self ;;
    match symbol with
    | Val (PStr name) =>
        let by_default :=
          f <~ lift (default_callee self) ;;
          set_transition_run first_state next_state (PStr name)
            (Partial f false first_state next_state) in
        match getattr self name with
        | Some transition =>
            if member_truthy transition then
              f <~ lift (as_callee transition) ;;
              set_transition_run first_state next_state (PStr name)
                (Partial f false first_state next_state)
            else by_default
        | None => by_default
        end
    | _ => lift (Raise TypeError)
    end.

(** The call for a caller that goes on with the instance when the call
    returns. *)
Definition add_transition (symbol states : pyobj) (attrs : option pyobj)
    (self : automaton) : result automaton :=
  returned (add_transition_run symbol states attrs) self.

(** [FiniteAutomaton._default] *)
Definition _default (current_state next_state : pyval) (attrs : kwargs)
    (self : automaton) : automaton * list line :=
  (set_current self next_state,
   [Moving current_state next_state; Attributes attrs]).

(** What a handler has done when it is over: the instance, the lines
    printed, and the exception raised, if any. *)
Definition handled : Type := automaton * list line * option exn.

(** Code outside the engine leaves [current] where its effect says. *)
Definition run_user (e : effect) (self : automaton) : handled :=
  (set_current self (left_current e), output e, raised e).

(** Calling a [functools.partial]: the stored positional arguments come
    first, the keyword arguments of the call follow.  [_default] takes
    exactly [current_state] and [next_state] after [self], and a keyword
    that names one of its parameters cannot go into [**attrs]. *)
Definition call_partial (p : partial) (payload : kwargs) (self : automaton)
    : handled :=
  let args := (if p_self p then [ArgSelf] else [])
                ++ [ArgVal (p_first p); ArgVal (p_next p)] in
  match p_func p with
  | Function _ code => run_user (user_code code args payload self) self
  | Bound (UserMethod code) =>
      run_user (user_code code (ArgSelf :: args) payload self) self
  | Bound (Inherited name) =>
      run_user (library_call name (ArgSelf :: args) payload self) self
  | Bound Default =>
      match args with
      | [ArgVal current_state; ArgVal next_state] =>
          if clashes default_params payload
          then (self, [], Some TypeError)
          else (_default current_state next_state payload self, None)
      | _ => (self, [], Some TypeError)
      end
  end.

(** Calling whatever sits under [TRANSITION]. *)
Definition call_attr (h : attr) (payload : kwargs) (self : automaton) : handled :=
  match h with
  | Handler p => call_partial p payload self
  | Value (PFunc _ code) => run_user (user_code code [] payload self) self
  | Value _ => (self, [], Some TypeError)
  end.

(** How a firing ends: it returns or raises, and either way leaves an
    instance and a trace of what has happened. *)
Inductive outcome : Type :=
| Returned (self : automaton) (trace : list event)
| Raised (e : exn) (self : automaton) (trace : list event).

(** The body of the loop of [__call__] over [targets.items()]. *)
Fixpoint fire_loop (targets : nbrdict) (items : nbrdict) (symbol : pyval)
    (payload : kwargs) (self : automaton) (trace : list event) : outcome :=
  match items with
  | [] => Returned self trace
  | (target_state, transitions) :: rest =>
      if dict_mem transitions symbol then
        match dict_get targets target_state with
        | None => Raised KeyError self trace
        | Some keys =>
            match dict_get keys symbol with
            | None => Raised KeyError self trace
            | Some data =>
                match dict_get data TRANSITION with
                | None => Raised KeyError self trace
                | Some h =>
                    let '(self', out, r) := call_attr h payload self in
                    let trace' := trace ++ Called h payload :: map Printed out in
                    match r with
                    | None => fire_loop targets rest symbol payload self' trace'
                    | Some e => Raised e self' trace'
                    end
                end
            end
        end
      else fire_loop targets rest symbol payload self trace
  end.

(** [FiniteAutomaton.__call__]: firing a symbol with a payload, which is
    [**kwargs] as the method receives it.  A keyword named after [self] or
    [symbol] cannot be bound, and the body does not start. *)
Definition __call__ (symbol : pyval) (payload : kwargs) (self : automaton)
    : outcome :=
  if clashes call_params payload then Raised TypeError self []
  else
    match dict_get (adj self) (current self) with
    | None => Raised KeyError self []
    | Some targets =>
        match targets with
        | _ :: _ => fire_loop targets targets symbol payload self []
        | [] =>
            Returned self
              [Printed (Text "Failure to transition: no available connection!")]
        end
    end.

(** The loop of the constructor over [new_transitions], on an instance
    whose [add_transition] is the method of the class. *)
Fixpoint load (new_transitions : list (list pyobj)) (self : automaton)
    : result automaton :=
  match new_transitions with
  | [] => Ok self
  | transition :: rest =>
      match transition with
      | [symbol; states] =>
          self <- add_transition symbol states None self ;;
          load rest self
      | [symbol; states; attr_dict] =>
          self <- add_transition symbol states (Some attr_dict) self ;;
          load rest self
      | _ => load rest self
      end
  end.

(** [FiniteAutomaton.__init__]: networkx sets up the graph from the keyword
    arguments, [current] is set, and the transitions are loaded. *)
Definition __init__ (new_transitions : list (list pyobj)) (initial_state : pyval)
    (keywords : kwargs) : result automaton :=
  g <- networkx_init keywords ;;
  load new_transitions {| adj := g; current := initial_state; __dict__ := [] |}.

End Engine.

(** ** Reading the graph *)

(** Data of the edge [(u, v, key)]. *)
Definition edge_data (self : automaton) (u v key : pyval) : option datadict :=
  graph_edge (adj self) u v key.

(** What the edge [(u, v, key)] holds under [TRANSITION]. *)
Definition edge_handler (self : automaton) (u v key : pyval) : option attr :=
  match edge_data self u v key with
  | None => None
  | Some data => dict_get data TRANSITION
  end.

(** The handler invocations and the printed lines of a trace. *)
Definition calls (trace : list event) : list (attr * kwargs) :=
  flat_map (fun e => match e with Called h kw => [(h, kw)] | Printed _ => [] end) trace.

Definition printed (trace : list event) : list line :=
  flat_map (fun e => match e with Printed l => [l] | Called _ _ => [] end) trace.

(** The outgoing edges of an adjacency that a symbol keys, as pairs of
    target state and edge data, in the order of the adjacency. *)
Definition matching_edges (targets : nbrdict) (symbol : pyval) : list (pyval * datadict) :=
  flat_map (fun tk => match dict_get (snd tk) symbol with
                      | Some data => [(fst tk, data)]
                      | None => []
                      end) targets.

(** A partial of the default handler between two states. *)
Definition default_partial (first_state next_state : pyval) : partial :=
  Partial (Bound Default) false first_state next_state.

(** The states a transition list declares: the two states of every
    descriptor of length two or three. *)
Definition declared_states (new_transitions : list (list pyobj)) : list pyval :=
  flat_map (fun t => match t with
                     | [_; states] | [_; states; _] =>
                         match unpack2 states with
                         | Ok (a, b) => [a; b]
                         | Raise _ => []
                         end
                     | _ => []
                     end) new_transitions.

(** The callables among the symbols of a transition list, by name. *)
Definition callable_name (symbol : pyobj) : list string :=
  match symbol with
  | Val (PFunc name _) => [name]
  | _ => []
  end.

Definition callable_names (new_transitions : list (list pyobj)) : list string :=
  flat_map (fun t => match t with
                     | [symbol; _] | [symbol; _; _] => callable_name symbol
                     | _ => []
                     end) new_transitions.

(** The instance once a callable symbol has been attached to it. *)
Definition attach (symbol : pyobj) (self : automaton) : automaton :=
  match symbol with
  | Val (PFunc name code) => setattr self name (PFunc name code)
  | _ => self
  end.

(** The callee that [add_transition] wraps for a symbol: the callable
    itself as found on the instance; for a name, what the instance has under
    it when that is truthy, and [self._default] otherwise. *)
Definition resolve `{Host} (symbol : pyobj) (self : automaton) : result callee :=
  match symbol with
  | Val (PFunc name _) =>
      match getattr self name with
      | Some m => as_callee m
      | None => Raise AttributeError
      end
  | Val (PStr name) =>
      match getattr self name with
      | Some transition =>
          if member_truthy transition then as_callee transition
          else default_callee self
      | None => default_callee self
      end
  | _ => Raise TypeError
  end.

(** The data of an edge once [add_transition] is done with it: the
    attributes merged into what the edge had, then the handler. *)
Definition registered_data (g : adjacency) (first_state next_state key : pyval)
    (d : kwargs) (h : partial) : datadict :=
  dict_set
    (dict_update (match graph_edge g first_state next_state key with
                  | Some data => data
                  | None => []
                  end)
       (map (fun kv => (fst kv, Value (snd kv))) d))
    TRANSITION (Handler h).

(** The key under which [add_transition] stores the edge of a symbol. *)
Definition edge_key (symbol : pyobj) : option pyval :=
  match symbol with
  | Val (PFunc name _) => Some (PStr name)
  | Val k => Some k
  | Dict _ => None
  end.

(** Every edge leads to a node, and a handler stored on an edge was made
    for the end points of that edge. *)
Definition edges_wf (g : adjacency) : Prop :=
  (forall u v keys, graph_keys g u v = Some keys -> In v (dict_keys g)) /\
  (forall u v key data p,
      graph_edge g u v key = Some data ->
      dict_get data TRANSITION = Some (Handler p) ->
      p_first p = u /\ p_next p = v).

(** ** What the example hosts take from the library *)

(** What an instance of a subclass of [MultiDiGraph] with a docstring
    answers to in networkx 2, once it has an edge: the methods of networkx and
    of [object], and the views [nodes], [edges] and the degrees, which can be
    called; the views [adj], [succ] and [pred], the dictionaries behind them
    and [__dict__], [__doc__] and [__module__], which cannot; the attribute
    dictionary [graph] and the [name], both empty when the constructor is
    given no keyword, and [__weakref__], which is [None]. *)
Definition library_callables : list string :=
  ["add_edge"; "add_edges_from"; "add_node"; "add_nodes_from";
   "add_weighted_edges_from"; "adjacency"; "adjlist_inner_dict_factory";
   "adjlist_outer_dict_factory"; "clear"; "copy"; "degree"; "edge_attr_dict_factory";
   "edge_key_dict_factory"; "edge_subgraph"; "edges"; "get_edge_data"; "has_edge";
   "has_node"; "has_predecessor"; "has_successor"; "in_degree"; "in_edges";
   "is_directed"; "is_multigraph"; "nbunch_iter"; "neighbors"; "new_edge_key";
   "node_dict_factory"; "nodes"; "number_of_edges"; "number_of_nodes"; "order";
   "out_degree"; "out_edges"; "predecessors"; "remove_edge"; "remove_edges_from";
   "remove_node"; "remove_nodes_from"; "reverse"; "size"; "subgraph"; "successors";
   "to_directed"; "to_directed_class"; "to_undirected"; "to_undirected_class";
   "update";
   "__class__"; "__contains__"; "__delattr__"; "__dir__"; "__eq__"; "__format__";
   "__ge__"; "__getattribute__"; "__getitem__"; "__gt__"; "__hash__";
   "__init_subclass__"; "__iter__"; "__le__"; "__len__"; "__lt__"; "__ne__";
   "__new__"; "__reduce__"; "__reduce_ex__"; "__repr__"; "__setattr__";
   "__sizeof__"; "__str__"; "__subclasshook__"].

Definition library_values : list string :=
  ["adj"; "succ"; "pred"; "_adj"; "_succ"; "_pred"; "_node";
   "__dict__"; "__doc__"; "__module__"].

Definition library_empty : list string := ["graph"; "name"; "__weakref__"].

Definition networkx_attr (name : string) : option library_attr :=
  if in_dec string_dec name library_callables then Some (LibraryAttr true true)
  else if in_dec string_dec name library_values then Some (LibraryAttr true false)
  else if in_dec string_dec name library_empty then Some (LibraryAttr false false)
  else None.

(** The examples hand networkx no graph data: the graph starts empty. *)
Definition no_graph_data (keywords : kwargs) : result adjacency :=
  match dict_get keywords "incoming_graph_data" with
  | None => Ok []
  | Some _ => Raise (UserError 0)
  end.

(** Of the methods of networkx, the queries on a pair of nodes can serve as
    handlers as they are: called with source and target they return a value,
    which the driver drops.  The examples fire no other attribute of the
    library. *)
Definition library_queries : list string :=
  ["has_edge"; "has_successor"; "has_predecessor"; "get_edge_data";
   "number_of_edges"; "new_edge_key"].

Definition query_only (name : string) (args : list parg) (payload : kwargs)
    (self : automaton) : effect :=
  match args, payload with
  | [ArgSelf; ArgVal _; ArgVal _], [] =>
      if in_dec string_dec name library_queries
      then Effect (current self) [] None
      else Effect (current self) [] (Some TypeError)
  | _, _ => Effect (current self) [] (Some TypeError)
  end.

(** ** A host for the examples: the turnstile of the module's demo *)

Module Turnstile.

(** [enter_coin] is a method of the subclass; [slam] and [fix] are the
    functions the demo registers later.  The coin value is in cents. *)
Definition enter_coin : nat := 0.
Definition slam : nat := 1.
Definition fix_ : nat := 2.

Definition code (c : nat) (args : list parg) (payload : kwargs) (self : automaton)
    : effect :=
  match c, args with
  | 0, [ArgSelf; ArgVal _; ArgVal second] =>
      if clashes ["self"; "first"; "second"] payload
      then Effect (current self) [] (Some TypeError)
      else match dict_get payload "coin_value" with
           | Some (PInt 25) => Effect second [Text "Thanks for entering a quarter!"] None
           | _ => Effect (current self) [Text "This turnstile only takes quarters!"] None
           end
  | 1, [ArgSelf; ArgVal _; ArgVal next_state] =>
      if clashes ["self"; "current_state"; "next_state"] payload
      then Effect (current self) [] (Some TypeError)
      else Effect next_state [Text "BANG! You slammed it, and it's broken."] None
  | 2, [ArgSelf; ArgVal current_state; ArgVal next_state] =>
      match payload with
      | [] =>
          if pyval_eq_dec current_state (PStr "broken")
          then Effect next_state [] None
          else Effect (current self) [Text "why fix it if it ain't broke?"] None
      | _ => Effect (current self) [] (Some TypeError)
      end
  | _, _ => Effect (current self) [] (Some TypeError)
  end.

Definition host : Host := {|
  methods := fun name => if string_dec name "enter_coin" then Some enter_coin else None;
  user_code := code;
  library := networkx_attr;
  library_call := query_only;
  add_edge_params := ["u_for_edge"; "v_for_edge"];
  networkx_init := no_graph_data
|}.

Definition locked : pyval := PStr "locked".
Definition unlocked : pyval := PStr "unlocked".
Definition broken : pyval := PStr "broken".

Definition transitions : list (list pyobj) :=
  [ [Val (PStr "enter_coin"); Val (PTuple [locked; unlocked])];
    [Val (PStr "push"); Val (PTuple [unlocked; locked]); Dict []] ].

(** The graph that the constructor builds from [transitions]. *)
Definition graph : adjacency :=
  [ (locked,
     [ (unlocked,
        [ (PStr "enter_coin",
           [ (TRANSITION,
              Handler (Partial (Bound (UserMethod enter_coin)) false locked unlocked)) ]) ]) ]);
    (unlocked,
     [ (locked,
        [ (PStr "push",
           [ (TRANSITION, Handler (default_partial unlocked locked)) ]) ]) ]) ].

Definition at_state (s : pyval) : automaton :=
  {| adj := graph; current := s; __dict__ := [] |}.

End Turnstile.

(** ** A host without user code, and an automaton that forks

    Two edges leave the state [a] under the same symbol [go], to [b] and to
    [c]; nothing leaves [b] and [c]. *)

Definition bare : Host := {|
  methods := fun _ => None;
  user_code := fun _ _ _ self => Effect (current self) [] (Some TypeError);
  library := networkx_attr;
  library_call := query_only;
  add_edge_params := ["u_for_edge"; "v_for_edge"];
  networkx_init := no_graph_data
|}.

Module Fork.

Definition a : pyval := PStr "a".
Definition b : pyval := PStr "b".
Definition c : pyval := PStr "c".
Definition go : pyval := PStr "go".

Definition transitions : list (list pyobj) :=
  [ [Val go; Val (PTuple [a; b])];
    [Val go; Val (PTuple [a; c])] ].

Definition targets : nbrdict :=
  [ (b, [ (go, [ (TRANSITION, Handler (default_partial a b)) ]) ]);
    (c, [ (go, [ (TRANSITION, Handler (default_partial a c)) ]) ]) ].

Definition graph : adjacency := [ (a, targets); (b, []); (c, []) ].

Definition at_state (s : pyval) : automaton :=
  {| adj := graph; current := s; __dict__ := [] |}.

(** The fork at [a] once [go] from [a] to [b] has been registered again
    with the attribute [cost]. *)
Definition priced : automaton :=
  {| adj := [ (a, [ (b, [ (go, [ (TRANSITION, Handler (default_partial a b));
                                 ("cost", Value (PInt 2)) ]) ]);
                    (c, [ (go, [ (TRANSITION, Handler (default_partial a c)) ]) ]) ]);
              (b, []); (c, []) ];
     current := a; __dict__ := [] |}.

End Fork.

(** A handler that is the default one, bound to some pair of states. *)
Definition default_bound (h : attr) : Prop :=
  exists first_state next_state, h = Handler (default_partial first_state next_state).

(** The instance and the trace that a firing leaves. *)
Definition final (o : outcome) : automaton :=
  match o with
  | Returned self _ => self
  | Raised _ self _ => self
  end.

Definition trace_of (o : outcome) : list event :=
  match o with
  | Returned _ trace => trace
  | Raised _ _ trace => trace
  end.

(** Firing one symbol after the other on the same instance, each with its
    payload; the caller goes on after a firing that raises. *)
Fixpoint fire_sequence `{Host} (steps : list (pyval * kwargs)) (self : automaton)
    (trace : list event) : automaton * list event :=
  match steps with
  | [] => (self, trace)
  | (symbol, payload) :: rest =>
      let o := __call__ symbol payload self in
      fire_sequence rest (final o) (trace ++ trace_of o)
  end.

(** ** Names that the engine relies on

    [add_transition] looks up [add_edge] on the instance, the constructor
    looks up [add_transition], the driver looks up [adj], and networkx looks
    up its own attributes.  The model takes these for what the classes
    define.  That is so as long as no callable with such a name has been
    registered, since registration puts the callable on the instance under
    its name. *)
Definition engine_names : list string := ["add_transition"; "add_edge"; "adj"].

Definition plain `{Host} (name : string) : Prop :=
  ~ In name engine_names /\ library name = None.

(** No attribute put on the instance hides a name that the engine relies
    on. *)
Definition unshadowed `{Host} (self : automaton) : Prop :=
  forall name, dict_get (__dict__ self) name <> None -> plain name.

(** ** Shapes of the graphs that registration builds *)

(** Every edge is keyed by a string, joins two nodes and holds, under
    [TRANSITION], a handler made for its two end points. *)
Definition edges_bound (g : adjacency) : Prop :=
  forall u v key data,
    graph_edge g u v key = Some data ->
    In u (dict_keys g) /\ In v (dict_keys g) /\
    (exists name, key = PStr name) /\
    exists p, dict_get data TRANSITION = Some (Handler p) /\
              p_first p = u /\ p_next p = v.

(** The adjacency of every node is a dictionary: its keys are distinct. *)
Definition targets_wf (g : adjacency) : Prop :=
  forall u nbrs, dict_get g u = Some nbrs -> NoDup (dict_keys nbrs).

(** The data of every edge is a dictionary: its keys are distinct. *)
Definition data_wf (g : adjacency) : Prop :=
  forall u v k old, graph_edge g u v k = Some old -> NoDup (dict_keys old).

(** The nodes a registration between two states adds, in the order in
    which [add_edge] adds them. *)
Definition new_nodes (g : adjacency) (first_state next_state : pyval) : list pyval :=
  (if in_dec pyval_eq_dec first_state (dict_keys g) then [] else [first_state])
  ++ (if in_dec pyval_eq_dec next_state (first_state :: dict_keys g)
      then [] else [next_state]).

(** ** The driver in the words of the specification *)

(** An edge and the handler bound to it. *)
Definition has_handler (e : pyval * datadict) (h : attr) : Prop :=
  dict_get (snd e) TRANSITION = Some h.

(** Invoking handlers one after the other with the same payload; the first
    that raises ends the run. *)
Fixpoint invoke_all `{Host} (handlers : list attr) (payload : kwargs)
    (self : automaton) (trace : list event) : outcome :=
  match handlers with
  | [] => Returned self trace
  | h :: rest =>
      let '(self', out, r) := call_attr h payload self in
      let trace' := trace ++ Called h payload :: map Printed out in
      match r with
      | None => invoke_all rest payload self' trace'
      | Some e => Raised e self' trace'
      end
  end.

(** How a firing that calls one handler ends. *)
Definition fired_once (h : attr) (payload : kwargs) (done : handled) : outcome :=
  let '(self, out, r) := done in
  let trace := Called h payload :: map Printed out in
  match r with
  | None => Returned self trace
  | Some e => Raised e self trace
  end.


(** * Properties *)

(** ** Dictionaries *)

Section DictFacts.
Context {K V : Type} `{EqDec K}.
Implicit Types (d : list (K * V)) (k : K) (v : V).

Lemma dict_get_set_same d k v : dict_get (dict_set d k v) k = Some v.
Proof.
  induction d as [|[k' v'] d IH]; simpl.
  - destruct (eq_dec k k); congruence.
  - destruct (eq_dec k' k) as [E|E]; simpl.
    + destruct (eq_dec k' k); congruence.
    + destruct (eq_dec k' k); congruence.
Qed.

Lemma dict_get_set_other d k k' v :
  k <> k' -> dict_get (dict_set d k v) k' = dict_get d k'.
Proof.
  intros Hne. induction d as [|[k0 v0] d IH]; simpl.
  - destruct (eq_dec k k'); congruence.
  - destruct (eq_dec k0 k) as [E|E]; simpl.
    + subst. destruct (eq_dec k k'); congruence.
    + destruct (eq_dec k0 k'); congruence.
Qed.

Lemma dict_set_set_same d k v v' : dict_set (dict_set d k v) k v' = dict_set d k v'.
Proof.
  induction d as [|[k0 v0] d IH]; simpl.
  - destruct (eq_dec k k); [reflexivity | congruence].
  - destruct (eq_dec k0 k) as [E|E]; simpl.
    + destruct (eq_dec k0 k); [reflexivity | congruence].
    + destruct (eq_dec k0 k); [congruence | now rewrite IH].
Qed.

Lemma dict_get_In_keys d k v : dict_get d k = Some v -> In k (dict_keys d).
Proof.
  induction d as [|[k' v'] d IH]; simpl; [discriminate|].
  destruct (eq_dec k' k); auto.
Qed.

Lemma dict_In_keys_get d k : In k (dict_keys d) -> exists v, dict_get d k = Some v.
Proof.
  induction d as [|[k' v'] d IH]; simpl; [tauto|].
  intros [E|Hin]; destruct (eq_dec k' k); eauto; congruence.
Qed.

Lemma dict_mem_In d k : dict_mem d k = true <-> In k (dict_keys d).
Proof.
  unfold dict_mem. split.
  - destruct (dict_get d k) eqn:E; [eauto using dict_get_In_keys | discriminate].
  - intros Hin. destruct (dict_In_keys_get _ _ Hin) as [v ->]. reflexivity.
Qed.

Lemma dict_keys_set d k v :
  dict_keys (dict_set d k v) = if dict_mem d k then dict_keys d else dict_keys d ++ [k].
Proof.
  unfold dict_mem. induction d as [|[k' v'] d IH]; simpl; [reflexivity|].
  destruct (eq_dec k' k); simpl; [reflexivity|].
  rewrite IH. destruct (dict_get d k); reflexivity.
Qed.

Lemma dict_In_keys_set d k v x :
  In x (dict_keys (dict_set d k v)) <-> x = k \/ In x (dict_keys d).
Proof.
  rewrite dict_keys_set. destruct (dict_mem d k) eqn:E.
  - apply dict_mem_In in E. split; [auto|]. intros [->|?]; auto.
  - rewrite in_app_iff. simpl. intuition congruence.
Qed.

Lemma dict_NoDup_set d k v :
  NoDup (dict_keys d) -> NoDup (dict_keys (dict_set d k v)).
Proof.
  intros Hnd. rewrite dict_keys_set. destruct (dict_mem d k) eqn:E; [assumption|].
  assert (Hk : ~ In k (dict_keys d)).
  { intros Hin. apply dict_mem_In in Hin. congruence. }
  clear E. induction (dict_keys d) as [|x l IH]; simpl.
  - constructor; [tauto | constructor].
  - inversion Hnd; subst. constructor.
    + rewrite in_app_iff. simpl in *. intuition congruence.
    + apply IH; simpl in *; tauto.
Qed.

Lemma dict_NoDup_update d items :
  NoDup (dict_keys d) -> NoDup (dict_keys (dict_update d items)).
Proof.
  unfold dict_update. revert d.
  induction items as [|[k v] items IH]; simpl; intros d Hnd; [assumption|].
  apply IH, dict_NoDup_set, Hnd.
Qed.

Lemma dict_get_In d k v :
  NoDup (dict_keys d) -> In (k, v) d -> dict_get d k = Some v.
Proof.
  induction d as [|[k' v'] d IH]; simpl; [tauto|].
  intros Hnd [E|Hin].
  - inversion E; subst. destruct (eq_dec k k); congruence.
  - inversion Hnd; subst. destruct (eq_dec k' k) as [->|Hne].
    + exfalso. apply H2. change (In (fst (k, v)) (map fst d)). now apply in_map.
    + auto.
Qed.

End DictFacts.

(** ** The graph *)

Section GraphFacts.
Implicit Types (g : adjacency) (u v n key : pyval).

Lemma ensure_node_get g n x :
  dict_get (ensure_node g n) x
  = match dict_get g x with
    | Some nbrs => Some nbrs
    | None => if eq_dec n x then Some [] else None
    end.
Proof.
  unfold ensure_node, dict_mem. destruct (dict_get g n) as [nb|] eqn:En.
  - destruct (dict_get g x) eqn:Ex; [reflexivity|].
    destruct (eq_dec n x); [congruence | reflexivity].
  - destruct (eq_dec n x) as [->|Hne].
    + now rewrite dict_get_set_same, En.
    + rewrite dict_get_set_other by assumption. now destruct (dict_get g x).
Qed.

Lemma ensure_node_keys g n x :
  In x (dict_keys (ensure_node g n)) <-> x = n \/ In x (dict_keys g).
Proof.
  unfold ensure_node. destruct (dict_mem g n) eqn:E.
  - apply dict_mem_In in E. split; [auto|]. intros [->|?]; auto.
  - apply dict_In_keys_set.
Qed.

Lemma graph_keys_ensure g n u v :
  graph_keys (ensure_node g n) u v = graph_keys g u v.
Proof.
  unfold graph_keys. rewrite ensure_node_get.
  destruct (dict_get g u); [reflexivity|]. now destruct (eq_dec n u).
Qed.

Lemma graph_put_keys g u v keys u' v' :
  graph_keys (graph_put g u v keys) u' v'
  = if eq_dec u u' then if eq_dec v v' then Some keys else graph_keys g u' v'
    else graph_keys g u' v'.
Proof.
  unfold graph_keys, graph_put. destruct (eq_dec u u') as [<-|Hu].
  - rewrite dict_get_set_same. destruct (eq_dec v v') as [<-|Hv].
    + apply dict_get_set_same.
    + rewrite dict_get_set_other by assumption. now destruct (dict_get g u).
  - now rewrite dict_get_set_other.
Qed.

Lemma graph_put_nodes g u v keys x :
  In x (dict_keys (graph_put g u v keys)) <-> x = u \/ In x (dict_keys g).
Proof. apply dict_In_keys_set. Qed.

(** [add_edge] as a single assignment into the graph with its end points. *)
Lemma add_edge_put u v key attr g :
  let g' := ensure_node (ensure_node g u) v in
  add_edge u v key attr g
  = graph_put g' u v
      (dict_set (match graph_keys g u v with Some ks => ks | None => [] end) key
         (dict_update (match graph_edge g u v key with Some d => d | None => [] end)
            (map (fun kv => (fst kv, Value (snd kv))) attr))).
Proof.
  intros g'. unfold add_edge, graph_put, graph_edge. fold g'.
  assert (Hk : graph_keys g' u v = graph_keys g u v)
    by (unfold g'; now rewrite !graph_keys_ensure).
  unfold graph_keys in Hk at 1. rewrite <- Hk.
  destruct (dict_get g' u) as [nbrs|]; simpl.
  - destruct (dict_get nbrs v) as [ks|]; reflexivity.
  - reflexivity.
Qed.

Lemma add_edge_nodes u v key attr g x :
  In x (dict_keys (add_edge u v key attr g)) <-> x = u \/ x = v \/ In x (dict_keys g).
Proof.
  rewrite add_edge_put. cbv zeta. rewrite graph_put_nodes, !ensure_node_keys. tauto.
Qed.

Lemma add_edge_keys u v key attr g u' v' :
  graph_keys (add_edge u v key attr g) u' v'
  = if eq_dec u u' then
      if eq_dec v v' then
        Some (dict_set (match graph_keys g u v with Some ks => ks | None => [] end) key
                (dict_update (match graph_edge g u v key with Some d => d | None => [] end)
                   (map (fun kv => (fst kv, Value (snd kv))) attr)))
      else graph_keys g u' v'
    else graph_keys g u' v'.
Proof.
  rewrite add_edge_put. cbv zeta. rewrite graph_put_keys, !graph_keys_ensure. reflexivity.
Qed.

End GraphFacts.

(** ** Registering a transition *)

Section Registration.
Context `{Host}.

Lemma getattr_set_adj self g name : getattr (set_adj self g) name = getattr self name.
Proof. reflexivity. Qed.

(** The three calls for a caller that drops the object at a raise. *)
Lemma set_transition_eq u v key h self :
  set_transition u v key h self
  = match dict_get (adj self) u with
    | None => Raise KeyError
    | Some nbrs =>
        match dict_get nbrs v with
        | None => Raise KeyError
        | Some keys =>
            match dict_get keys key with
            | None => Raise KeyError
            | Some data =>
                Ok (set_adj self
                      (dict_set (adj self) u
                         (dict_set nbrs v
                            (dict_set keys key (dict_set data TRANSITION (Handler h))))))
            end
        end
    end.
Proof.
  unfold set_transition, returned, set_transition_run.
  destruct (dict_get (adj self) u) as [nbrs|]; [|reflexivity].
  destruct (dict_get nbrs v) as [keys|]; [|reflexivity].
  destruct (dict_get keys key); reflexivity.
Qed.

Lemma call_add_edge_eq u v key attrs self :
  call_add_edge u v key attrs self
  = match attrs, key with
    | Dict d, Val k =>
        if clashes ("self" :: "key" :: add_edge_params) d
        then Raise TypeError
        else Ok (set_adj self (add_edge u v k d (adj self)))
    | _, _ => Raise TypeError
    end.
Proof.
  unfold call_add_edge, returned, call_add_edge_run.
  destruct attrs as [a|d]; [now destruct key|].
  destruct (clashes _ d); destruct key; reflexivity.
Qed.

Lemma add_transition_eq symbol states attrs self :
  add_transition symbol states attrs self
  = ('(first_state, next_state) <- unpack2 states ;;
     if callable symbol then
       symbol_name <- __name__ symbol ;;
       self1 <- call_add_edge first_state next_state (Val (PStr symbol_name))
                  (attrs_or_empty attrs)
                  (match symbol with
                   | Val f => setattr self symbol_name f
                   | Dict _ => self
                   end) ;;
       match getattr self1 symbol_name with
       | None => Raise AttributeError
       | Some m =>
           f <- as_callee m ;;
           set_transition first_state next_state (PStr symbol_name)
             (Partial f true first_state next_state) self1
       end
     else
       self1 <- call_add_edge first_state next_state symbol (attrs_or_empty attrs) self ;;
       match symbol with
       | Val (PStr name) =>
           match getattr self1 name with
           | Some transition =>
               if member_truthy transition then
                 f <- as_callee transition ;;
                 set_transition first_state next_state (PStr name)
                   (Partial f false first_state next_state) self1
               else
                 f <- default_callee self1 ;;
                 set_transition first_state next_state (PStr name)
                   (Partial f false first_state next_state) self1
           | None =>
               f <- default_callee self1 ;;
               set_transition first_state next_state (PStr name)
                 (Partial f false first_state next_state) self1
           end
       | _ => Raise TypeError
       end).
Proof.
  unfold add_transition, returned, add_transition_run, and_then, lift, get_self, put_self,
    call_add_edge, set_transition, returned, bind.
  destruct (unpack2 states) as [[a b]|e]; [|reflexivity].
  destruct (callable symbol).
  - destruct (__name__ symbol) as [n|e]; [|reflexivity].
    destruct (call_add_edge_run a b (Val (PStr n)) _ _) as [s1 [[]|e]]; [|reflexivity].
    destruct (getattr s1 n) as [m|]; [|reflexivity].
    destruct (as_callee m); reflexivity.
  - destruct (call_add_edge_run a b symbol _ self) as [s1 [[]|e]]; [|reflexivity].
    destruct symbol as [[z|name|name code|items]|dd]; try reflexivity.
    destruct (getattr s1 name) as [m|].
    + destruct (member_truthy m); [destruct (as_callee m) | destruct (default_callee s1)];
        reflexivity.
    + destruct (default_callee s1); reflexivity.
Qed.

Lemma set_transition_inv u v key h self self' :
  set_transition u v key h self = Ok self' ->
  exists keys data,
    graph_keys (adj self) u v = Some keys /\
    dict_get keys key = Some data /\
    self' = set_adj self
              (graph_put (adj self) u v
                 (dict_set keys key (dict_set data TRANSITION (Handler h)))).
Proof.
  rewrite set_transition_eq. unfold graph_keys, graph_put.
  destruct (dict_get (adj self) u) as [nbrs|]; [|discriminate].
  destruct (dict_get nbrs v) as [keys|]; [|discriminate].
  destruct (dict_get keys key) as [data|] eqn:Ed; [|discriminate].
  intros E. inversion E. exists keys, data. auto.
Qed.

Lemma call_add_edge_inv u v key attrs self self' :
  call_add_edge u v key attrs self = Ok self' ->
  exists d k,
    attrs = Dict d /\ key = Val k /\
    clashes ("self" :: "key" :: add_edge_params) d = false /\
    self' = set_adj self (add_edge u v k d (adj self)).
Proof.
  rewrite call_add_edge_eq. destruct attrs as [a|d]; [discriminate|].
  destruct key as [k|]; [|discriminate].
  destruct (clashes _ d) eqn:Ec; [discriminate|].
  intros E. inversion E. eauto 6.
Qed.

(** A registered edge: both steps of [add_transition] on the graph. *)
Lemma register_edge u v key d h self self1 self' :
  self1 = set_adj self (add_edge u v key d (adj self)) ->
  set_transition u v key h self1 = Ok self' ->
  current self' = current self /\ __dict__ self' = __dict__ self /\
  (forall x, In x (nodes self') <-> x = u \/ x = v \/ In x (nodes self)) /\
  (forall u' v',
      graph_keys (adj self') u' v'
      = if eq_dec u u' then
          if eq_dec v v' then
            Some (dict_set (match graph_keys (adj self) u v with
                            | Some ks => ks
                            | None => []
                            end) key (registered_data (adj self) u v key d h))
          else graph_keys (adj self) u' v'
        else graph_keys (adj self) u' v').
Proof.
  intros -> Hset. apply set_transition_inv in Hset.
  destruct Hset as (keys & data & Hkeys & Hdata & ->). simpl in *.
  rewrite add_edge_keys in Hkeys.
  destruct (eq_dec u u) as [_|]; [|congruence].
  destruct (eq_dec v v) as [_|]; [|congruence].
  inversion Hkeys; subst keys; clear Hkeys.
  rewrite dict_get_set_same in Hdata. inversion Hdata; subst data; clear Hdata.
  repeat split; auto.
  - unfold nodes. simpl. rewrite graph_put_nodes, add_edge_nodes. tauto.
  - unfold nodes. simpl. rewrite graph_put_nodes, add_edge_nodes. tauto.
  - intros u' v'. rewrite graph_put_keys, add_edge_keys.
    destruct (eq_dec u u'); [|reflexivity].
    destruct (eq_dec v v'); [|reflexivity].
    unfold registered_data. now rewrite dict_set_set_same.
Qed.

(** What a call of [add_transition] that returns has done. *)
Lemma add_transition_inv symbol states attrs self self' :
  add_transition symbol states attrs self = Ok self' ->
  exists first_state next_state key d f self1,
    unpack2 states = Ok (first_state, next_state) /\
    edge_key symbol = Some key /\
    attrs_or_empty attrs = Dict d /\
    clashes ("self" :: "key" :: add_edge_params) d = false /\
    resolve symbol (attach symbol self) = Ok f /\
    self1 = set_adj (attach symbol self)
              (add_edge first_state next_state key d (adj (attach symbol self))) /\
    set_transition first_state next_state key
      (Partial f (callable symbol) first_state next_state) self1 = Ok self'.
Proof.
  rewrite add_transition_eq.
  destruct (unpack2 states) as [[first_state next_state]|e]; simpl; [|discriminate].
  destruct symbol as [[z|name|name code|items]|dd]; simpl.
  - destruct (call_add_edge _ _ _ _ _); simpl; discriminate.
  - destruct (call_add_edge first_state next_state (Val (PStr name)) _ self)
      as [self1|e] eqn:Ea; simpl; [|discriminate].
    apply call_add_edge_inv in Ea. destruct Ea as (d & k & Hd & Hk & Hc & ->).
    inversion Hk; subst k.
    rewrite !getattr_set_adj. unfold default_callee. rewrite !getattr_set_adj.
    fold (default_callee self).
    intros E. exists first_state, next_state, (PStr name), d.
    destruct (getattr self name) as [m|] eqn:Eg.
    + destruct (member_truthy m) eqn:Et.
      * destruct (as_callee m) as [f|e] eqn:Ef; simpl in E; [|discriminate].
        exists f. eexists. repeat split; eauto.
      * destruct (default_callee self) as [f|e] eqn:Ef; simpl in E; [|discriminate].
        exists f. eexists. repeat split; eauto.
    + destruct (default_callee self) as [f|e] eqn:Ef; simpl in E; [|discriminate].
      exists f. eexists. repeat split; eauto.
  - destruct (call_add_edge first_state next_state (Val (PStr name)) _ _)
      as [self1|e] eqn:Ea; simpl; [|discriminate].
    apply call_add_edge_inv in Ea. destruct Ea as (d & k & Hd & Hk & Hc & ->).
    inversion Hk; subst k. rewrite getattr_set_adj.
    intros E. exists first_state, next_state, (PStr name), d.
    destruct (getattr (setattr self name (PFunc name code)) name) as [m|] eqn:Eg;
      [|discriminate].
    destruct (as_callee m) as [f|e] eqn:Ef; simpl in E; [|discriminate].
    exists f. eexists. repeat split; eauto.
  - destruct (call_add_edge _ _ _ _ _); simpl; discriminate.
  - destruct (call_add_edge _ _ _ _ _) eqn:Ea; simpl; [|discriminate].
    apply call_add_edge_inv in Ea. destruct Ea as (d & k & _ & Hk & _). discriminate.
Qed.

Lemma adj_attach symbol self : adj (attach symbol self) = adj self.
Proof.
  destruct symbol as [[z|n|n c|items]|d]; simpl; try reflexivity.
  unfold setattr. now destruct (eq_dec n "current").
Qed.

Lemma getattr_setattr_same self name v :
  getattr (setattr self name v) name = Some (Data v).
Proof.
  unfold getattr, setattr. destruct (eq_dec name "current") as [E|E]; simpl.
  - reflexivity.
  - now rewrite dict_get_set_same.
Qed.

(** Unless an instance attribute or a subclass method of that name is in
    the way, [self._default] is the method of [FiniteAutomaton]. *)
Lemma default_callee_base self :
  dict_get (__dict__ self) "_default" = None ->
  methods "_default" = None ->
  default_callee self = Ok (Bound Default).
Proof.
  intros Hd Hm. unfold default_callee, getattr, class_attr. simpl. now rewrite Hd, Hm.
Qed.

(** The edge and its handler after a call that returns. *)
Lemma add_transition_edge symbol states attrs self self' :
  add_transition symbol states attrs self = Ok self' ->
  exists first_state next_state key d f,
    unpack2 states = Ok (first_state, next_state) /\
    edge_key symbol = Some key /\
    attrs_or_empty attrs = Dict d /\
    resolve symbol (attach symbol self) = Ok f /\
    current self' = current (attach symbol self) /\
    __dict__ self' = __dict__ (attach symbol self) /\
    (forall x, In x (nodes self') <->
               x = first_state \/ x = next_state \/ In x (nodes self)) /\
    (forall u v,
        graph_keys (adj self') u v
        = if eq_dec first_state u then
            if eq_dec next_state v then
              Some (dict_set (match graph_keys (adj self) first_state next_state with
                              | Some ks => ks
                              | None => []
                              end) key
                      (registered_data (adj self) first_state next_state key d
                         (Partial f (callable symbol) first_state next_state)))
            else graph_keys (adj self) u v
          else graph_keys (adj self) u v).
Proof.
  intros E. apply add_transition_inv in E.
  destruct E as (a & b & key & d & f & self1 & Hu & Hk & Hd & _ & Hr & H1 & Hset).
  exists a, b, key, d, f. repeat (split; [assumption|]).
  eapply register_edge in Hset; [|exact H1]. destruct Hset as (Hc & Hi & Hn & Hg).
  rewrite adj_attach in Hg. unfold nodes in Hn. rewrite adj_attach in Hn.
  repeat split; try assumption; apply Hn.
Qed.

(** C9 at two calls that raise after [add_edge] has run.  With the symbol
    [7] the edge stays in the graph without a handler.  With the symbol
    [current] on an instance whose [current] is the state [a], a truthy value
    that cannot be called, the entry that the caller gave under [TRANSITION]
    stays on the edge. *)
Lemma add_transition_raise_leaves_edge :
  (exists self',
      add_transition_run (H := bare) (Val (PInt 7))
        (Val (PTuple [PStr "a"; PStr "b"])) None (blank (PStr "a"))
      = (self', Raise TypeError) /\
      edge_data self' (PStr "a") (PStr "b") (PInt 7) = Some [] /\
      edge_handler self' (PStr "a") (PStr "b") (PInt 7) = None) /\
  (exists self',
      add_transition_run (H := bare) (Val (PStr "current"))
        (Val (PTuple [PStr "a"; PStr "b"])) (Some (Dict [(TRANSITION, PInt 7)]))
        (blank (PStr "a"))
      = (self', Raise TypeError) /\
      edge_handler self' (PStr "a") (PStr "b") (PStr "current") = Some (Value (PInt 7))).
Proof.
  split; eexists; (split; [vm_compute; reflexivity|]); repeat split; reflexivity.
Qed.

(** C9, amended: take an instance where no registered callable hides a
    name the engine relies on, and a symbol that, when callable, is not named
    after such a name.  A call [add_transition(symbol, (source, target),
    attrs)] that returns leaves the edge with data that binds [TRANSITION] to
    a handler made for [source] and [target]: the attributes are merged first
    and the handler is stored last, so that an entry of [attrs] under
    [TRANSITION] is overwritten.  The key occurs once in the data when the
    keys of the data the edge had before were distinct.  So every edge added
    by a call that returns carries exactly one resolved handler. *)
Theorem add_transition_stores_handler (symbol states : pyobj) (attrs : option pyobj)
    (self self' : automaton) :
  unshadowed self ->
  Forall plain (callable_name symbol) ->
  add_transition symbol states attrs self = Ok self' ->
  exists first_state next_state key d h data,
    unpack2 states = Ok (first_state, next_state) /\
    edge_key symbol = Some key /\
    attrs_or_empty attrs = Dict d /\
    p_first h = first_state /\ p_next h = next_state /\
    resolve symbol (attach symbol self) = Ok (p_func h) /\
    data = registered_data (adj self) first_state next_state key d h /\
    edge_data self' first_state next_state key = Some data /\
    dict_get data TRANSITION = Some (Handler h) /\
    ((forall old, edge_data self first_state next_state key = Some old ->
                  NoDup (dict_keys old)) ->
     NoDup (dict_keys data)).
Proof.
  intros _ _ E. apply add_transition_edge in E.
  destruct E as (a & b & key & d & f & Hu & Hk & Hd & Hr & _ & _ & _ & Hg).
  exists a, b, key, d, (Partial f (callable symbol) a b). eexists.
  repeat (split; [eassumption || reflexivity|]).
  split; [|split].
  - unfold edge_data, graph_edge. rewrite Hg.
    destruct (eq_dec a a); [|congruence]. destruct (eq_dec b b); [|congruence].
    apply dict_get_set_same.
  - apply dict_get_set_same.
  - intros Hold. unfold registered_data. apply dict_NoDup_set, dict_NoDup_update.
    unfold edge_data in Hold.
    destruct (graph_edge (adj self) a b key) as [old|]; [now apply Hold | constructor].
Qed.

(** C4 on an instance whose [current] is the state [0]: the instance has
    an attribute named [current], yet the edge registered for the symbol
    [current] is bound to the default handler, because the attribute's value
    is falsy. *)
Lemma falsy_attribute_gets_default_handler :
  getattr (H := bare) (blank (PInt 0)) "current" = Some (Data (PInt 0)) /\
  exists self',
    add_transition (H := bare) (Val (PStr "current"))
      (Val (PTuple [PStr "a"; PStr "b"])) None (blank (PInt 0)) = Ok self' /\
    edge_handler self' (PStr "a") (PStr "b") (PStr "current")
    = Some (Handler (default_partial (PStr "a") (PStr "b"))).
Proof. split; [reflexivity|]. eexists. split; reflexivity. Qed.

(** A truthy attribute that is not callable cannot be bound at all. *)
Lemma truthy_attribute_not_callable :
  add_transition (H := bare) (Val (PStr "current"))
    (Val (PTuple [PStr "a"; PStr "b"])) None (blank (PStr "a")) = Raise TypeError.
Proof. reflexivity. Qed.

(** C4, amended: a call of [add_transition] that returns has resolved the
    handler of the edge once, in this order.  A callable symbol is attached
    to the instance under its name and bound with [self], source and target
    pre-applied.  For any other symbol, a string, the instance is asked for
    an attribute of that name: a value that is truthy is bound with source
    and target pre-applied (it has to be callable); when there is no such
    attribute or its value is falsy, [self._default] is bound with source and
    target pre-applied, which is [FiniteAutomaton._default] unless the name
    [_default] has been redefined. *)
Theorem handler_resolution_order (symbol states : pyobj) (attrs : option pyobj)
    (self self' : automaton) :
  add_transition symbol states attrs self = Ok self' ->
  exists first_state next_state key f,
    unpack2 states = Ok (first_state, next_state) /\
    edge_key symbol = Some key /\
    edge_handler self' first_state next_state key
    = Some (Handler (Partial f (callable symbol) first_state next_state)) /\
    match symbol with
    | Val (PFunc name code) =>
        getattr self' name = Some (Data (PFunc name code)) /\
        f = Function name code /\ callable symbol = true
    | Val (PStr name) =>
        callable symbol = false /\
        match getattr self name with
        | Some m =>
            if member_truthy m then as_callee m = Ok f
            else default_callee self = Ok f
        | None => default_callee self = Ok f
        end /\
        (dict_get (__dict__ self) "_default" = None -> methods "_default" = None ->
         default_callee self = Ok (Bound Default))
    | _ => False
    end.
Proof.
  intros E. apply add_transition_edge in E.
  destruct E as (a & b & key & d & f & Hu & Hk & Hd & Hr & Hc & Hi & _ & Hg).
  exists a, b, key, f. repeat (split; [assumption|]). split.
  - unfold edge_handler, edge_data, graph_edge. rewrite Hg.
    destruct (eq_dec a a); [|congruence]. destruct (eq_dec b b); [|congruence].
    rewrite dict_get_set_same. apply dict_get_set_same.
  - destruct symbol as [[z|name|name code|items]|dd]; simpl in Hr; try discriminate.
    + split; [reflexivity|]. split; [|apply default_callee_base].
      destruct (getattr self name) as [m|]; [|exact Hr].
      destruct (member_truthy m); exact Hr.
    + simpl in Hc, Hi. rewrite getattr_setattr_same in Hr. simpl in Hr.
      inversion Hr; subst f. split; [|split; reflexivity].
      assert (Hs : getattr self' name = getattr (setattr self name (PFunc name code)) name).
      { unfold getattr. now rewrite Hc, Hi. }
      rewrite Hs. apply getattr_setattr_same.
Qed.

End Registration.

(** ** error.py *)

(** C8, at a start state that is a pair: the format string finds its two
    values in the pair and the constructor returns an exception. *)
Lemma IllegalTransition_pair_start :
  Error.IllegalTransition (PTuple [PStr "locked"; PStr "unlocked"]) (PStr "push")
  = Ok (AutomatonError "IllegalTransition"
          [Message "Illegal transition %s from starting node %s"
             [PStr "locked"; PStr "unlocked"];
           Object (PStr "push")]).
Proof. reflexivity. Qed.

(** C8, amended: the format string of [IllegalTransition] has two
    conversions and is applied to [start] alone.  Construction raises
    [TypeError] unless [start] is a tuple of exactly two items; then the
    message is made of these two items and the symbol is no part of it, being
    handed on as a second argument of the exception. *)
Theorem IllegalTransition_malformed (start symbol : pyval) :
  Error.IllegalTransition start symbol
  = match start with
    | PTuple [a; b] =>
        Ok (AutomatonError "IllegalTransition"
              [Message "Illegal transition %s from starting node %s" [a; b];
               Object symbol])
    | _ => Raise TypeError
    end.
Proof.
  unfold Error.IllegalTransition, Error.percent.
  destruct start as [z|s|n c|items]; try reflexivity.
  destruct items as [|a [|b [|c items]]]; reflexivity.
Qed.

(** ** Firing *)

(** One turn of the loop of the driver in a run [E] that has returned:
    either the symbol is not among the keys of the target and the run goes
    on (left to [eauto]), or every lookup has found something and the handler
    has returned. *)
Ltac loop_step E :=
  match type of E with
  | context [dict_mem ?keys ?symbol] => destruct (dict_mem keys symbol); [|eauto]
  end;
  repeat match type of E with
    | context [dict_get ?d ?k] => destruct (dict_get d k); [|discriminate]
    end;
  match type of E with
  | context [call_attr ?h ?payload ?self] =>
      destruct (call_attr h payload self) as [[? ?] [?|]]; [discriminate|]
  end.

Section Firing.
Context `{Host}.

Lemma calls_app (t1 t2 : list event) : calls (t1 ++ t2) = calls t1 ++ calls t2.
Proof. unfold calls. apply flat_map_app. Qed.


Lemma printed_app (t1 t2 : list event) : printed (t1 ++ t2) = printed t1 ++ printed t2.
Proof. unfold printed. apply flat_map_app. Qed.

Lemma run_user_frame e self self' out r :
  run_user e self = (self', out, r) ->
  adj self' = adj self /\ __dict__ self' = __dict__ self.
Proof. unfold run_user. intros E. inversion E; subst. auto. Qed.

(** A handler leaves the graph and the instance attributes alone, also
    when it raises. *)
Lemma call_attr_frame h payload self self' out r :
  call_attr h payload self = (self', out, r) ->
  adj self' = adj self /\ __dict__ self' = __dict__ self.
Proof.
  destruct h as [v|p]; simpl.
  - destruct v; try apply run_user_frame; intros E; inversion E; subst; auto.
  - unfold call_partial. destruct (p_func p) as [n c|[c| |n]]; try apply run_user_frame.
    destruct (p_self p); simpl; [intros E; inversion E; subst; now auto|].
    destruct (clashes _ payload); intros E; inversion E; subst; auto.
Qed.

(** When no target holds an edge for the symbol the loop changes nothing. *)
Lemma fire_loop_no_match targets items symbol payload self trace :
  (forall t keys, In (t, keys) items -> dict_mem keys symbol = false) ->
  fire_loop targets items symbol payload self trace = Returned self trace.
Proof.
  induction items as [|[t keys] items IH]; simpl; intros Hno; [reflexivity|].
  rewrite (Hno t keys) by auto. apply IH. intros t' keys' Hin. eapply Hno; eauto.
Qed.

(** C5 at a payload with a key named [symbol]: the state [b] of the fork
    has no outgoing edge, and firing raises [TypeError] before the body of
    [__call__] starts: nothing is printed. *)
Lemma fire_no_outgoing_edges_rejects_keyword :
  dict_get (adj (Fork.at_state Fork.b)) (current (Fork.at_state Fork.b)) = Some [] /\
  __call__ (H := bare) Fork.go [("symbol", PInt 1)] (Fork.at_state Fork.b)
  = Raised TypeError (Fork.at_state Fork.b) [].
Proof. split; reflexivity. Qed.

(** C5, amended: from a state that is a node without outgoing edges, on an
    instance where no registered callable hides a name the engine relies on,
    firing any symbol with a payload that has no key named [self] or [symbol]
    prints the no-connection diagnostic and does nothing else: no handler is
    called and the automaton, [current] included, is as before. *)
Theorem fire_no_outgoing_edges (self : automaton) (symbol : pyval) (payload : kwargs) :
  unshadowed self ->
  clashes call_params payload = false ->
  dict_get (adj self) (current self) = Some [] ->
  exists trace,
    __call__ symbol payload self = Returned self trace /\
    printed trace = [Text "Failure to transition: no available connection!"] /\
    calls trace = [].
Proof.
  intros _ Hpay Hadj. unfold __call__. rewrite Hpay, Hadj.
  eexists. split; [reflexivity|]. split; reflexivity.
Qed.

(** When [current] is no node of the graph, [self.adj[self.current]] fails. *)
Lemma fire_off_graph (self : automaton) (symbol : pyval) (payload : kwargs) :
  clashes call_params payload = false ->
  ~ In (current self) (nodes self) ->
  __call__ symbol payload self = Raised KeyError self [].
Proof.
  intros Hpay Hout. unfold __call__. rewrite Hpay.
  destruct (dict_get (adj self) (current self)) as [targets|] eqn:E; [|reflexivity].
  apply dict_get_In_keys in E. contradiction.
Qed.

(** C6 at a payload with a key named [symbol]: nothing leaves the state
    [a] of the fork under [halt], and firing it raises [TypeError]. *)
Lemma fire_unmatched_symbol_rejects_keyword :
  (forall t keys, In (t, keys) Fork.targets -> dict_mem keys (PStr "halt") = false) /\
  __call__ (H := bare) (PStr "halt") [("symbol", PInt 1)] (Fork.at_state Fork.a)
  = Raised TypeError (Fork.at_state Fork.a) [].
Proof.
  split; [|reflexivity]. intros t keys [E|[E|[]]]; inversion E; reflexivity.
Qed.

(** C6, amended: from a state that has outgoing edges, none of them keyed
    by the fired symbol, on an instance where no registered callable hides a
    name the engine relies on, firing with a payload that has no key named
    [self] or [symbol] returns normally with an empty trace (no handler
    called, nothing printed) and the same automaton. *)
Theorem fire_unmatched_symbol_silent (self : automaton) (symbol : pyval)
    (payload : kwargs) (targets : nbrdict) :
  unshadowed self ->
  clashes call_params payload = false ->
  dict_get (adj self) (current self) = Some targets ->
  targets <> [] ->
  (forall t keys, In (t, keys) targets -> dict_mem keys symbol = false) ->
  __call__ symbol payload self = Returned self [].
Proof.
  intros _ Hpay Hadj Hne Hno. unfold __call__. rewrite Hpay, Hadj.
  destruct targets as [|x rest]; [congruence|].
  now apply fire_loop_no_match.
Qed.



(** The loop of the driver visits every item of the adjacency: it is the
    run of the handlers of all matching edges, in the order of the items. *)
Lemma fire_loop_invoke_all targets symbol payload :
  NoDup (dict_keys targets) ->
  forall items handlers self trace,
    incl items targets ->
    Forall2 has_handler (matching_edges items symbol) handlers ->
    fire_loop targets items symbol payload self trace
    = invoke_all handlers payload self trace.
Proof.
  intros Hnd. induction items as [|[t keys] items IH]; simpl;
    intros handlers self trace Hincl Hall.
  - inversion Hall; subst. reflexivity.
  - assert (Hrest : incl items targets) by (intros x Hx; apply Hincl; now right).
    unfold dict_mem. destruct (dict_get keys symbol) as [data|] eqn:Hkey.
    + simpl in Hall. inversion Hall as [|e h es hs Hh Hall']; subst.
      rewrite (dict_get_In targets t keys Hnd) by (apply Hincl; now left).
      rewrite Hkey. unfold has_handler in Hh. simpl in Hh. rewrite Hh. simpl.
      destruct (call_attr h payload self) as [[s1 out] [e|]]; [reflexivity|].
      now apply IH.
    + simpl in Hall. now apply IH.
Qed.

Lemma call_invoke_all self symbol payload targets handlers :
  clashes call_params payload = false ->
  dict_get (adj self) (current self) = Some targets ->
  targets <> [] ->
  NoDup (dict_keys targets) ->
  Forall2 has_handler (matching_edges targets symbol) handlers ->
  __call__ symbol payload self = invoke_all handlers payload self [].
Proof.
  intros Hpay Hadj Hne Hnd Hall.
  unfold __call__. rewrite Hpay, Hadj.
  destruct targets as [|x rest] eqn:Et; [congruence|].
  rewrite <- Et in *. apply fire_loop_invoke_all; auto using incl_refl.
Qed.




Lemma matching_edges_app (xs ys : nbrdict) (symbol : pyval) :
  matching_edges (xs ++ ys) symbol = matching_edges xs symbol ++ matching_edges ys symbol.
Proof. unfold matching_edges. apply flat_map_app. Qed.

(** The default handler, called with a payload it can take. *)
Lemma call_default first_state next_state payload self :
  clashes default_params payload = false ->
  call_partial (default_partial first_state next_state) payload self
  = (set_current self next_state,
     [Moving first_state next_state; Attributes payload], None).
Proof. intros Hok. unfold call_partial. simpl. now rewrite Hok. Qed.





End Firing.

(** ** Construction *)

Section Construction.
Context `{Host}.

Lemma load_skip (t : list pyobj) (rest : list (list pyobj)) (self : automaton) :
  List.length t <> 2 -> List.length t <> 3 -> load (t :: rest) self = load rest self.
Proof.
  intros H2 H3. destruct t as [|a [|b [|c [|d t]]]]; simpl in *; try reflexivity; lia.
Qed.

Lemma load_app (pre post : list (list pyobj)) (self : automaton) :
  load (pre ++ post) self = (self' <- load pre self ;; load post self').
Proof.
  revert self. induction pre as [|t pre IH]; intros self; [reflexivity|].
  destruct t as [|a [|b [|c [|d t]]]]; simpl; try apply IH.
  - destruct (add_transition a b None self); simpl; [apply IH | reflexivity].
  - destruct (add_transition a b (Some c) self); simpl; [apply IH | reflexivity].
Qed.

(** C10: a descriptor whose length is neither two nor three has no effect
    on construction: the result, automaton or exception, is the one obtained
    from the list without that descriptor. *)
Theorem init_skips_malformed_descriptor
    (pre post : list (list pyobj)) (t : list pyobj) (initial_state : pyval)
    (keywords : kwargs) :
  List.length t <> 2 -> List.length t <> 3 ->
  __init__ (pre ++ t :: post) initial_state keywords
  = __init__ (pre ++ post) initial_state keywords.
Proof.
  intros H2 H3. unfold __init__.
  destruct (networkx_init keywords) as [g|e]; simpl; [|reflexivity].
  rewrite !load_app. destruct (load pre _); simpl; [|reflexivity].
  now apply load_skip.
Qed.

Lemma graph_keys_get g u v keys :
  graph_keys g u v = Some keys ->
  exists nbrs, dict_get g u = Some nbrs /\ dict_get nbrs v = Some keys.
Proof.
  unfold graph_keys. destruct (dict_get g u) as [nbrs|]; [eauto | discriminate].
Qed.

(** Once the edge is in the graph its handler can be stored. *)
Lemma set_transition_after_add_edge u v key d h self :
  exists self',
    set_transition u v key h (set_adj self (add_edge u v key d (adj self))) = Ok self'.
Proof.
  pose proof (add_edge_keys u v key d (adj self) u v) as Hk.
  destruct (eq_dec u u); [|congruence]. destruct (eq_dec v v); [|congruence].
  apply graph_keys_get in Hk. destruct Hk as (nbrs & Hu & Hv).
  rewrite set_transition_eq. simpl. rewrite Hu, Hv, dict_get_set_same. eauto.
Qed.

Lemma default_callee_raises self e :
  default_callee self = Raise e -> e = TypeError.
Proof.
  unfold default_callee, getattr, class_attr. simpl.
  destruct (dict_get (__dict__ self) "_default") as [v|].
  - destruct v; simpl; congruence.
  - destruct (methods "_default"); simpl; congruence.
Qed.

Lemma as_callee_raises m e : as_callee m = Raise e -> e = TypeError.
Proof.
  destruct m as [[z|s0|n c|items]|b|n a]; simpl; try congruence.
  destruct (lib_callable a); congruence.
Qed.

Lemma unpack2_raises states e :
  unpack2 states = Raise e -> e = TypeError \/ e = ValueError.
Proof.
  destruct states as [[z|s0|n c|items]|d]; simpl.
  - intros E; inversion E; auto.
  - destruct s0 as [|a [|b [|c s0]]]; intros E; inversion E; auto.
  - intros E; inversion E; auto.
  - destruct items as [|a [|b [|c items]]]; intros E; inversion E; auto.
  - destruct (dict_keys (dict_update [] d)) as [|a [|b [|c l]]];
      intros E; inversion E; auto.
Qed.

Lemma call_add_edge_raises u v key attrs self e :
  call_add_edge u v key attrs self = Raise e -> e = TypeError.
Proof.
  rewrite call_add_edge_eq. destruct attrs; [congruence|].
  destruct key; [|congruence]. destruct (clashes _ _); congruence.
Qed.

(** The exceptions of a registration are those of ill-formed arguments. *)
Lemma add_transition_raises symbol states attrs self e :
  add_transition symbol states attrs self = Raise e ->
  e = TypeError \/ e = ValueError.
Proof.
  rewrite add_transition_eq.
  destruct (unpack2 states) as [[a b]|e0] eqn:Eu; simpl.
  2:{ intros E. inversion E; subst. eapply unpack2_raises; eauto. }
  assert (Hset : forall k d h s0 e1,
             set_transition a b k h (set_adj s0 (add_edge a b k d (adj s0))) = Raise e1 ->
             False).
  { intros k d h s0 e1 E. destruct (set_transition_after_add_edge a b k d h s0).
    congruence. }
  destruct symbol as [[z|name|name code|items]|dd]; simpl.
  - destruct (call_add_edge _ _ _ _ _) eqn:Ea; simpl; intros E; inversion E; subst; auto.
    apply call_add_edge_raises in Ea. auto.
  - destruct (call_add_edge a b (Val (PStr name)) _ self) as [s1|e1] eqn:Ea; simpl.
    2:{ intros E. inversion E; subst. apply call_add_edge_raises in Ea. auto. }
    apply call_add_edge_inv in Ea. destruct Ea as (d & k & _ & Hk & _ & ->).
    inversion Hk; subst k. rewrite !getattr_set_adj.
    unfold default_callee. rewrite !getattr_set_adj. fold (default_callee self).
    assert (Hdef : (f <- default_callee self;;
                    set_transition a b (PStr name) (Partial f false a b)
                      (set_adj self (add_edge a b (PStr name) d (adj self)))) = Raise e ->
                   e = TypeError \/ e = ValueError).
    { destruct (default_callee self) as [f|e1] eqn:Ed; simpl.
      - intros E. exfalso. eapply Hset; eauto.
      - intros E. inversion E; subst. apply default_callee_raises in Ed. auto. }
    destruct (getattr self name) as [m|]; [|exact Hdef].
    destruct (member_truthy m); [|exact Hdef].
    destruct (as_callee m) as [f|e1] eqn:Ef; simpl.
    + intros E. exfalso. eapply Hset; eauto.
    + intros E. inversion E; subst. apply as_callee_raises in Ef. auto.
  - destruct (call_add_edge a b (Val (PStr name)) _ _) as [s1|e1] eqn:Ea; simpl.
    2:{ intros E. inversion E; subst. apply call_add_edge_raises in Ea. auto. }
    apply call_add_edge_inv in Ea. destruct Ea as (d & k & _ & Hk & _ & ->).
    inversion Hk; subst k. rewrite getattr_set_adj, getattr_setattr_same. simpl.
    intros E. exfalso. eapply Hset. rewrite <- E. reflexivity.
  - destruct (call_add_edge _ _ _ _ _) eqn:Ea; simpl; intros E; inversion E; subst; auto.
    apply call_add_edge_raises in Ea. auto.
  - destruct (call_add_edge _ _ _ _ _) eqn:Ea; simpl; intros E; inversion E; subst; auto.
    apply call_add_edge_raises in Ea. auto.
Qed.

(** A registration with well-formed arguments returns. *)
Lemma add_transition_returns symbol states attrs self a b d f :
  callable symbol = true \/ (exists name, symbol = Val (PStr name)) ->
  unpack2 states = Ok (a, b) ->
  attrs_or_empty attrs = Dict d ->
  clashes ("self" :: "key" :: add_edge_params) d = false ->
  resolve symbol (attach symbol self) = Ok f ->
  exists self', add_transition symbol states attrs self = Ok self'.
Proof.
  intros Hsym Hu Hd Hc Hr. rewrite add_transition_eq, Hu, Hd. cbn [bind].
  destruct symbol as [[z|name|name code|items]|dd];
    try (destruct Hsym as [Hs|[n Hs]]; discriminate); cbn [callable __name__ bind].
  - rewrite call_add_edge_eq, Hc. cbn [bind]. rewrite !getattr_set_adj.
    simpl in Hr. unfold default_callee in *. rewrite !getattr_set_adj.
    destruct (getattr self name) as [m|].
    + destruct (member_truthy m); rewrite Hr; cbn [bind];
        apply set_transition_after_add_edge.
    + rewrite Hr. cbn [bind]. apply set_transition_after_add_edge.
  - rewrite call_add_edge_eq, Hc. cbn [bind]. rewrite getattr_set_adj. simpl in Hr.
    destruct (getattr (setattr self name (PFunc name code)) name) as [m|];
      [|discriminate].
    rewrite Hr. simpl. apply set_transition_after_add_edge.
Qed.

Lemma load_raises ts : forall self e,
  load ts self = Raise e -> e = TypeError \/ e = ValueError.
Proof.
  induction ts as [|t ts IH]; intros self e; simpl; [discriminate|].
  destruct t as [|a [|b [|c [|d t]]]]; try apply IH.
  - destruct (add_transition a b None self) eqn:Ea; simpl; [apply IH|].
    intros E. inversion E; subst. eapply add_transition_raises; eauto.
  - destruct (add_transition a b (Some c) self) eqn:Ea; simpl; [apply IH|].
    intros E. inversion E; subst. eapply add_transition_raises; eauto.
Qed.

(** One registration: the nodes it adds and what it does to [current]. *)
Lemma add_transition_nodes symbol states attrs self self' :
  add_transition symbol states attrs self = Ok self' ->
  exists a b,
    unpack2 states = Ok (a, b) /\
    (forall x, In x (nodes self') <-> x = a \/ x = b \/ In x (nodes self)) /\
    current self' = current (attach symbol self).
Proof.
  intros E. apply add_transition_edge in E.
  destruct E as (a & b & key & d & f & Hu & _ & _ & _ & Hc & _ & Hn & _).
  exists a, b. auto.
Qed.

Lemma load_nodes ts : forall self self',
  load ts self = Ok self' ->
  forall x, In x (nodes self') <-> In x (declared_states ts) \/ In x (nodes self).
Proof.
  induction ts as [|t ts IH]; intros self self'; simpl.
  - intros E. inversion E; subst. tauto.
  - unfold declared_states. simpl. fold (declared_states ts).
    destruct t as [|a [|b [|c [|d t]]]]; simpl; try (intros E x; rewrite (IH _ _ E); tauto).
    + destruct (add_transition a b None self) as [s1|] eqn:Ea; simpl; [|discriminate].
      intros E x. rewrite (IH _ _ E).
      apply add_transition_nodes in Ea. destruct Ea as (u & v & -> & Hn & _).
      rewrite Hn, in_app_iff. simpl. intuition congruence.
    + destruct (add_transition a b (Some c) self) as [s1|] eqn:Ea; simpl; [|discriminate].
      intros E x. rewrite (IH _ _ E).
      apply add_transition_nodes in Ea. destruct Ea as (u & v & -> & Hn & _).
      rewrite Hn, in_app_iff. simpl. intuition congruence.
Qed.

Lemma current_attach symbol self :
  (forall code, symbol <> Val (PFunc "current" code)) ->
  current (attach symbol self) = current self.
Proof.
  intros Hne. destruct symbol as [[z|n|n c|items]|d]; simpl; try reflexivity.
  unfold setattr. destruct (eq_dec n "current") as [->|]; [|reflexivity].
  now destruct (Hne c).
Qed.

Lemma load_current ts : forall self self',
  load ts self = Ok self' ->
  ~ In "current" (callable_names ts) ->
  current self' = current self.
Proof.
  induction ts as [|t ts IH]; intros self self'; simpl.
  - intros E _. now inversion E.
  - unfold callable_names. simpl. fold (callable_names ts).
    destruct t as [|a [|b [|c [|d t]]]]; simpl; try (intros E Hn; now apply IH).
    + destruct (add_transition a b None self) as [s1|] eqn:Ea; simpl; [|discriminate].
      intros E Hn. apply add_transition_nodes in Ea. destruct Ea as (u & v & _ & _ & Hc).
      rewrite in_app_iff in Hn. rewrite (IH _ _ E), Hc by tauto.
      apply current_attach. intros code ->. apply Hn. simpl. auto.
    + destruct (add_transition a b (Some c) self) as [s1|] eqn:Ea; simpl; [|discriminate].
      intros E Hn. apply add_transition_nodes in Ea. destruct Ea as (u & v & _ & _ & Hc).
      rewrite in_app_iff in Hn. rewrite (IH _ _ E), Hc by tauto.
      apply current_attach. intros code ->. apply Hn. simpl. auto.
Qed.

(** C2 on an empty transition list: the declared initial state is not a
    node of the (empty) graph, and construction returns an automaton. *)
Lemma init_accepts_undeclared_state :
  __init__ (H := bare) [] (PStr "idle") [] = Ok (blank (PStr "idle")) /\
  ~ In (PStr "idle") (nodes (blank (PStr "idle"))).
Proof. split; [reflexivity | simpl; tauto]. Qed.

(** C2, amended: construction never fails with [InvalidStartingState],
    whether or not the declared initial state is among the nodes of the graph
    built from the transition list.  Let the keyword arguments hand networkx
    no graph data and let no callable symbol be named after an attribute that
    the engine relies on.  Then what construction raises is never an
    exception of [error.py] (it is the exception of a descriptor that cannot
    be registered, and no automaton is given); otherwise it returns the
    automaton whose nodes are the states of the descriptors, with [current]
    at the declared initial state unless a callable symbol named [current]
    replaced it. *)
Theorem init_never_rejects_initial_state
    (new_transitions : list (list pyobj)) (initial_state : pyval) (keywords : kwargs) :
  networkx_init keywords = Ok [] ->
  Forall plain (callable_names new_transitions) ->
  match __init__ new_transitions initial_state keywords with
  | Raise e => forall cls args, e <> AutomatonError cls args
  | Ok self =>
      (forall x, In x (nodes self) <-> In x (declared_states new_transitions)) /\
      (~ In "current" (callable_names new_transitions) ->
       current self = initial_state)
  end.
Proof.
  intros Hkw _. unfold __init__. rewrite Hkw. cbn [bind].
  destruct (load new_transitions _) as [self|e] eqn:E.
  - split.
    + intros x. rewrite (load_nodes _ _ E). simpl. tauto.
    + intros Hn. now rewrite (load_current _ _ E Hn).
  - intros cls args ->. apply load_raises in E. destruct E; discriminate.
Qed.

End Construction.

(** ** The current state and the node set *)

Section CurrentState.
Context `{Host}.

Lemma edges_wf_empty : edges_wf [].
Proof. split; intros; discriminate. Qed.

Lemma add_transition_edges_wf symbol states attrs self self' :
  edges_wf (adj self) ->
  add_transition symbol states attrs self = Ok self' ->
  edges_wf (adj self').
Proof.
  intros [Hnode Hedge] E. apply add_transition_edge in E.
  destruct E as (a & b & key & d & f & _ & _ & _ & _ & _ & _ & Hn & Hg).
  unfold nodes in Hn. split.
  - intros u v keys. rewrite Hg, Hn.
    destruct (eq_dec a u) as [<-|]; [destruct (eq_dec b v) as [<-|]|]; eauto.
  - intros u v k data p. unfold graph_edge. rewrite Hg.
    destruct (eq_dec a u) as [<-|]; [destruct (eq_dec b v) as [<-|]|];
      try apply Hedge.
    destruct (eq_dec key k) as [<-|Hk].
    + rewrite dict_get_set_same. intros E. inversion E; subst data; clear E.
      unfold registered_data. rewrite dict_get_set_same.
      intros E. inversion E; subst p. auto.
    + rewrite dict_get_set_other by assumption.
      specialize (Hedge a b k data p). unfold graph_edge in Hedge.
      destruct (graph_keys (adj self) a b); [exact Hedge | discriminate].
Qed.

Lemma load_edges_wf ts : forall self self',
  edges_wf (adj self) -> load ts self = Ok self' -> edges_wf (adj self').
Proof.
  induction ts as [|t ts IH]; intros self self' Hwf; simpl.
  - intros E. inversion E; subst. assumption.
  - destruct t as [|a [|b [|c [|d t]]]]; simpl; try (now apply IH).
    + destruct (add_transition a b None self) as [s1|] eqn:Ea; simpl; [|discriminate].
      apply IH. eapply add_transition_edges_wf; eauto.
    + destruct (add_transition a b (Some c) self) as [s1|] eqn:Ea; simpl; [|discriminate].
      apply IH. eapply add_transition_edges_wf; eauto.
Qed.

Lemma fire_loop_extends targets symbol payload : forall items self trace,
  exists more,
    trace_of (fire_loop targets items symbol payload self trace) = trace ++ more.
Proof.
  induction items as [|[t keys] items IH]; simpl; intros self trace.
  - exists []. now rewrite app_nil_r.
  - destruct (dict_mem keys symbol); [|apply IH].
    destruct (dict_get targets t) as [ks|]; [|exists []; now rewrite app_nil_r].
    destruct (dict_get ks symbol) as [data|]; [|exists []; now rewrite app_nil_r].
    destruct (dict_get data TRANSITION) as [h|]; [|exists []; now rewrite app_nil_r].
    destruct (call_attr h payload self) as [[s1 out] [e|]].
    + simpl. eauto.
    + destruct (IH s1 (trace ++ Called h payload :: map Printed out)) as [more ->].
      rewrite <- app_assoc. eauto.
Qed.

(** While only default handlers run, the loop keeps [current] on a node,
    whether it returns or raises. *)
Lemma fire_loop_keeps_node g cur0 targets symbol payload :
  edges_wf g -> dict_get g cur0 = Some targets ->
  forall items self trace,
    adj self = g -> In (current self) (dict_keys g) ->
    (forall h kw,
        In (h, kw) (calls (trace_of (fire_loop targets items symbol payload self trace))) ->
        default_bound h) ->
    adj (final (fire_loop targets items symbol payload self trace)) = g /\
    In (current (final (fire_loop targets items symbol payload self trace))) (dict_keys g).
Proof.
  intros [Hnode Hedge] Hcur.
  induction items as [|[t keys] items IH]; simpl; intros self trace Hadj Hin Hdef.
  - auto.
  - destruct (dict_mem keys symbol); [|eauto].
    destruct (dict_get targets t) as [ks|] eqn:Et; [|simpl; auto].
    destruct (dict_get ks symbol) as [data|] eqn:Ek; [|simpl; auto].
    destruct (dict_get data TRANSITION) as [h|] eqn:Eh; [|simpl; auto].
    assert (Hh : default_bound h).
    { apply (Hdef h payload).
      destruct (call_attr h payload self) as [[s1 out] [e|]].
      - simpl. rewrite calls_app. simpl. rewrite in_app_iff. simpl. auto.
      - destruct (fire_loop_extends targets symbol payload items s1
                    (trace ++ Called h payload :: map Printed out)) as [more ->].
        rewrite !calls_app. simpl. rewrite !in_app_iff. simpl. auto. }
    destruct Hh as (a & b & ->).
    assert (Hk : graph_keys g cur0 t = Some ks) by (unfold graph_keys; now rewrite Hcur).
    assert (Hb : b = t).
    { destruct (Hedge cur0 t symbol data (default_partial a b)) as [_ Hb]; auto.
      unfold graph_edge. now rewrite Hk. }
    subst b. simpl in Hdef |- *. unfold call_partial in Hdef |- *. simpl in Hdef |- *.
    destruct (clashes default_params payload); [simpl; auto|].
    apply IH; simpl; eauto.
Qed.

Lemma call_keeps_node symbol payload self :
  edges_wf (adj self) -> In (current self) (nodes self) ->
  (forall h kw, In (h, kw) (calls (trace_of (__call__ symbol payload self))) ->
                default_bound h) ->
  adj (final (__call__ symbol payload self)) = adj self /\
  In (current (final (__call__ symbol payload self)))
     (nodes (final (__call__ symbol payload self))).
Proof.
  intros Hwf Hin. unfold __call__.
  destruct (clashes call_params payload); [simpl; auto|].
  destruct (dict_get (adj self) (current self)) as [targets|] eqn:Et; [|simpl; auto].
  destruct targets as [|x rest] eqn:Ets; [simpl; auto|].
  rewrite <- Ets in *. intros Hdef.
  destruct (@fire_loop_keeps_node (adj self) (current self) targets symbol payload
              Hwf Et targets self [] eq_refl Hin Hdef) as [Ha Hc].
  unfold nodes. rewrite Ha. auto.
Qed.

Lemma fire_sequence_extends steps : forall self trace,
  exists more, snd (fire_sequence steps self trace) = trace ++ more.
Proof.
  induction steps as [|[symbol payload] steps IH]; simpl; intros self trace.
  - exists []. now rewrite app_nil_r.
  - destruct (IH (final (__call__ symbol payload self))
                (trace ++ trace_of (__call__ symbol payload self))) as [more ->].
    rewrite <- app_assoc. eauto.
Qed.

Lemma fire_sequence_keeps_node steps : forall self trace,
  edges_wf (adj self) -> In (current self) (nodes self) ->
  (forall h kw, In (h, kw) (calls (snd (fire_sequence steps self trace))) ->
                default_bound h) ->
  In (current (fst (fire_sequence steps self trace)))
     (nodes (fst (fire_sequence steps self trace))).
Proof.
  induction steps as [|[symbol payload] steps IH]; simpl; intros self trace Hwf Hin Hdef.
  - assumption.
  - destruct (fire_sequence_extends steps (final (__call__ symbol payload self))
                (trace ++ trace_of (__call__ symbol payload self))) as [more Hmore].
    destruct (@call_keeps_node symbol payload self Hwf Hin) as [Ha Hc].
    { intros h kw Hh. apply (Hdef h kw). rewrite Hmore, !calls_app, !in_app_iff. auto. }
    apply IH; [now rewrite Ha | assumption | exact Hdef].
Qed.

(** C1 on the turnstile started in a state that no transition mentions:
    construction returns, and [current] is not a node. *)
Lemma init_leaves_current_off_graph :
  exists self,
    __init__ (H := Turnstile.host) Turnstile.transitions (PStr "open") [] = Ok self /\
    ~ In (current self) (nodes self).
Proof.
  eexists. split; [reflexivity|]. simpl. intros [E|[E|[]]]; discriminate.
Qed.

(** C1, amended: let the automaton be constructed, with keyword arguments
    that hand networkx no graph data, from a transition list in which the
    initial state is the source or the target of some descriptor and no
    callable symbol is named [current] or after an attribute that the engine
    relies on ([add_transition], [add_edge], [adj], what networkx defines).
    Then [current] is a node right after construction, and it is a node again
    after every firing of a sequence of firings, with any symbols and
    payloads, whether they return or raise, in which each handler that gets
    called is the default handler.  (Construction checks nothing, and a
    handler written by the user may leave [current] anywhere.) *)
Theorem current_is_a_node
    (new_transitions : list (list pyobj)) (initial_state : pyval) (keywords : kwargs)
    (steps : list (pyval * kwargs)) (self self' : automaton) (trace : list event) :
  networkx_init keywords = Ok [] ->
  __init__ new_transitions initial_state keywords = Ok self ->
  In initial_state (declared_states new_transitions) ->
  ~ In "current" (callable_names new_transitions) ->
  Forall plain (callable_names new_transitions) ->
  fire_sequence steps self [] = (self', trace) ->
  (forall h kw, In (h, kw) (calls trace) -> default_bound h) ->
  In (current self) (nodes self) /\ In (current self') (nodes self').
Proof.
  intros Hkw Hinit Hdecl Hname _ Hrun Hdef. unfold __init__ in Hinit.
  rewrite Hkw in Hinit. cbn [bind] in Hinit.
  assert (Hin : In (current self) (nodes self)).
  { rewrite (load_current _ _ Hinit Hname). simpl.
    apply (load_nodes _ _ Hinit). auto. }
  split; [exact Hin|].
  assert (Hwf : edges_wf (adj self)).
  { eapply load_edges_wf; [|exact Hinit]. apply edges_wf_empty. }
  pose proof (@fire_sequence_keeps_node steps self [] Hwf Hin) as Hkeep.
  rewrite Hrun in Hkeep. apply Hkeep. exact Hdef.
Qed.

End CurrentState.

(** * Further properties of the engine *)

(** ** More on dictionaries *)

Section DictMore.
Context {K V : Type} `{EqDec K}.
Implicit Types (d items : list (K * V)) (k : K) (v : V).



Lemma dict_mem_false d k : dict_mem d k = false <-> ~ In k (dict_keys d).
Proof.
  rewrite <- dict_mem_In. destruct (dict_mem d k); split; intros; congruence.
Qed.

Lemma dict_get_app d1 d2 k :
  dict_get (d1 ++ d2) k
  = match dict_get d1 k with Some v => Some v | None => dict_get d2 k end.
Proof.
  induction d1 as [|[k0 v0] d1 IH]; simpl; [reflexivity|].
  destruct (eq_dec k0 k); [reflexivity | exact IH].
Qed.

(** After an update a key has the last value the items give it, and the
    value it had when they give none. *)
Lemma dict_get_update d items k :
  dict_get (dict_update d items) k
  = match dict_get (rev items) k with Some v => Some v | None => dict_get d k end.
Proof.
  unfold dict_update. revert d.
  induction items as [|[k0 v0] items IH]; simpl; intros d; [reflexivity|].
  rewrite IH, dict_get_app. destruct (dict_get (rev items) k); [reflexivity|].
  simpl. destruct (eq_dec k0 k) as [->|Hne].
  - apply dict_get_set_same.
  - now apply dict_get_set_other.
Qed.

Lemma dict_keys_update_present d items :
  (forall k, In k (dict_keys items) -> In k (dict_keys d)) ->
  dict_keys (dict_update d items) = dict_keys d.
Proof.
  unfold dict_update. revert d.
  induction items as [|[k0 v0] items IH]; simpl; intros d Hin; [reflexivity|].
  assert (Hk : dict_keys (dict_set d k0 v0) = dict_keys d).
  { rewrite dict_keys_set.
    destruct (dict_mem d k0) eqn:E; [reflexivity|].
    apply dict_mem_false in E. destruct E. auto. }
  rewrite IH; [exact Hk|]. intros k Hk'. rewrite Hk. auto.
Qed.

Lemma dict_keys_update_incl d items k :
  In k (dict_keys items) -> In k (dict_keys (dict_update d items)).
Proof.
  intros Hin. destruct (dict_get (dict_update d items) k) as [v|] eqn:E.
  - eapply dict_get_In_keys; eauto.
  - rewrite dict_get_update in E.
    assert (Hr : In k (dict_keys (rev items))).
    { unfold dict_keys in *. rewrite map_rev. now apply in_rev in Hin. }
    destruct (dict_In_keys_get _ _ Hr) as [v Hv]. rewrite Hv in E. discriminate.
Qed.

(** Two dictionaries with the same keys in the same order and the same
    value under every key are the same. *)
Lemma dict_ext d1 : forall d2,
  NoDup (dict_keys d1) ->
  dict_keys d1 = dict_keys d2 ->
  (forall k, dict_get d1 k = dict_get d2 k) ->
  d1 = d2.
Proof.
  induction d1 as [|[k1 v1] d1 IH]; intros [|[k2 v2] d2] Hnd Hkeys Hget;
    simpl in *; try discriminate; [reflexivity|].
  injection Hkeys as Hk Hrest. subst k2. inversion Hnd as [|x l Hx Hl]; subst.
  pose proof (Hget k1) as Hv. destruct (eq_dec k1 k1); [|congruence].
  inversion Hv; subst v2. f_equal. apply IH; auto.
  intros k. destruct (eq_dec k1 k) as [<-|Hne].
  - assert (E1 : dict_get d1 k1 = None).
    { destruct (dict_get d1 k1) eqn:E; [|reflexivity].
      apply dict_get_In_keys in E. contradiction. }
    assert (E2 : dict_get d2 k1 = None).
    { destruct (dict_get d2 k1) eqn:E; [|reflexivity].
      apply dict_get_In_keys in E. unfold dict_keys in *. rewrite <- Hrest in E.
      contradiction. }
    congruence.
  - specialize (Hget k). now destruct (eq_dec k1 k).
Qed.

End DictMore.

(** ** The graph after a registration *)

Section RegistrationMore.
Context `{Host}.

Lemma ensure_node_keys_exact (g : adjacency) (n : pyval) :
  dict_keys (ensure_node g n)
  = dict_keys g ++ (if in_dec pyval_eq_dec n (dict_keys g) then [] else [n]).
Proof.
  unfold ensure_node. destruct (dict_mem g n) eqn:E.
  - apply dict_mem_In in E. destruct (in_dec pyval_eq_dec n (dict_keys g)); [|tauto].
    now rewrite app_nil_r.
  - rewrite dict_keys_set, E. apply dict_mem_false in E.
    destruct (in_dec pyval_eq_dec n (dict_keys g)); [tauto | reflexivity].
Qed.

Lemma add_edge_keys_exact u v key attr (g : adjacency) :
  dict_keys (add_edge u v key attr g) = dict_keys g ++ new_nodes g u v.
Proof.
  rewrite add_edge_put. cbv zeta. unfold graph_put.
  rewrite dict_keys_set.
  assert (Hu : dict_mem (ensure_node (ensure_node g u) v) u = true).
  { apply dict_mem_In. rewrite !ensure_node_keys. auto. }
  rewrite Hu, !ensure_node_keys_exact. unfold new_nodes. rewrite <- app_assoc. f_equal.
  f_equal.
  destruct (in_dec pyval_eq_dec u (dict_keys g)) as [Hin|Hout].
  - rewrite app_nil_r.
    destruct (in_dec pyval_eq_dec v (dict_keys g)),
             (in_dec pyval_eq_dec v (u :: dict_keys g)); simpl in *; try reflexivity.
    + tauto.
    + destruct i as [->|]; tauto.
  - destruct (in_dec pyval_eq_dec v (dict_keys g ++ [u])) as [i|n],
             (in_dec pyval_eq_dec v (u :: dict_keys g)) as [i'|n']; try reflexivity.
    + exfalso. apply n'. apply in_app_iff in i. simpl in *. tauto.
    + exfalso. apply n. apply in_app_iff. simpl in *. tauto.
Qed.

Lemma add_edge_get u v key attr (g : adjacency) x :
  dict_get (add_edge u v key attr g) x
  = if eq_dec u x then
      Some (dict_set (match dict_get g u with Some n => n | None => [] end) v
              (dict_set (match graph_keys g u v with Some ks => ks | None => [] end) key
                 (dict_update (match graph_edge g u v key with Some d => d | None => [] end)
                    (map (fun kv => (fst kv, Value (snd kv))) attr))))
    else match dict_get g x with
         | Some n => Some n
         | None => if eq_dec v x then Some [] else None
         end.
Proof.
  rewrite add_edge_put. cbv zeta. unfold graph_put.
  destruct (eq_dec u x) as [<-|Hne].
  - rewrite dict_get_set_same, !ensure_node_get.
    destruct (eq_dec u u); [|congruence].
    destruct (dict_get g u); [reflexivity|]. reflexivity.
  - rewrite dict_get_set_other by assumption. rewrite !ensure_node_get.
    destruct (dict_get g x); [reflexivity|].
    destruct (eq_dec u x); [congruence | reflexivity].
Qed.

(** The adjacency, node by node, and the node list after a registration. *)
Lemma add_transition_adj symbol states attrs self self' :
  add_transition symbol states attrs self = Ok self' ->
  exists first_state next_state key d f,
    unpack2 states = Ok (first_state, next_state) /\
    edge_key symbol = Some key /\
    attrs_or_empty attrs = Dict d /\
    resolve symbol (attach symbol self) = Ok f /\
    nodes self' = nodes self ++ new_nodes (adj self) first_state next_state /\
    forall x,
      dict_get (adj self') x
      = if eq_dec first_state x then
          Some (dict_set (match dict_get (adj self) first_state with
                          | Some n => n
                          | None => []
                          end) next_state
                  (dict_set (match graph_keys (adj self) first_state next_state with
                             | Some ks => ks
                             | None => []
                             end) key
                     (registered_data (adj self) first_state next_state key d
                        (Partial f (callable symbol) first_state next_state))))
        else match dict_get (adj self) x with
             | Some n => Some n
             | None => if eq_dec next_state x then Some [] else None
             end.
Proof.
  intros E. apply add_transition_inv in E.
  destruct E as (a & b & key & d & f & self1 & Hu & Hk & Hd & _ & Hr & H1 & Hset).
  exists a, b, key, d, f. repeat (split; [assumption|]).
  apply set_transition_inv in Hset. destruct Hset as (keys & data & Hkeys & Hdata & ->).
  subst self1. simpl in *. rewrite adj_attach in *.
  rewrite add_edge_keys in Hkeys.
  destruct (eq_dec a a) as [_|]; [|congruence].
  destruct (eq_dec b b) as [_|]; [|congruence].
  inversion Hkeys; subst keys; clear Hkeys.
  rewrite dict_get_set_same in Hdata. inversion Hdata; subst data; clear Hdata.
  split.
  - unfold nodes, graph_put. simpl. rewrite dict_keys_set.
    assert (Ha : dict_mem (add_edge a b key d (adj self)) a = true).
    { apply dict_mem_In, add_edge_nodes. auto. }
    rewrite Ha. apply add_edge_keys_exact.
  - intros x. unfold graph_put. rewrite (add_edge_get a b key d (adj self) a).
    destruct (eq_dec a a) as [_|]; [|congruence].
    destruct (eq_dec a x) as [<-|Hne].
    + rewrite dict_get_set_same, !dict_set_set_same. reflexivity.
    + rewrite dict_get_set_other by assumption. rewrite add_edge_get.
      destruct (eq_dec a x); [congruence | reflexivity].
Qed.

(** X1: A registration appends to the node list the end points that are new,
    source first, and leaves the nodes there are in place; between two states
    that are nodes already it adds no node. *)
Theorem add_transition_appends_new_nodes (symbol states : pyobj)
    (attrs : option pyobj) (self self' : automaton) :
  add_transition symbol states attrs self = Ok self' ->
  exists first_state next_state,
    unpack2 states = Ok (first_state, next_state) /\
    nodes self' = nodes self ++ new_nodes (adj self) first_state next_state /\
    (In first_state (nodes self) -> In next_state (nodes self) ->
     nodes self' = nodes self).
Proof.
  intros E. apply add_transition_adj in E.
  destruct E as (a & b & key & d & f & Hu & _ & _ & _ & Hn & _).
  exists a, b. repeat split; try assumption.
  intros Ha Hb. rewrite Hn. unfold new_nodes, nodes in *.
  destruct (in_dec pyval_eq_dec a (dict_keys (adj self))); [|tauto].
  destruct (in_dec pyval_eq_dec b (a :: dict_keys (adj self))) as [|n];
    [now rewrite app_nil_r|].
  exfalso. apply n. now right.
Qed.

(** X2: A registration changes one edge only: any edge between another pair of
    states, and any edge between the same pair under another key, has the
    data it had. *)
Theorem add_transition_keeps_other_edges (symbol states : pyobj)
    (attrs : option pyobj) (self self' : automaton) :
  add_transition symbol states attrs self = Ok self' ->
  exists first_state next_state key,
    unpack2 states = Ok (first_state, next_state) /\
    edge_key symbol = Some key /\
    forall u v k,
      (u, v, k) <> (first_state, next_state, key) ->
      edge_data self' u v k = edge_data self u v k.
Proof.
  intros E. apply add_transition_adj in E.
  destruct E as (a & b & key & d & f & Hu & Hk & _ & _ & _ & Hg).
  exists a, b, key. repeat (split; [assumption|]).
  intros u v k Hne. unfold edge_data, graph_edge, graph_keys. rewrite Hg.
  destruct (eq_dec a u) as [<-|Hu'].
  - destruct (eq_dec b v) as [<-|Hv].
    + rewrite dict_get_set_same. destruct (eq_dec key k) as [<-|Hk'']; [congruence|].
      rewrite dict_get_set_other by assumption.
      unfold graph_keys.
      destruct (dict_get (adj self) a) as [n|]; [|reflexivity].
      now destruct (dict_get n b).
    + rewrite dict_get_set_other by assumption.
      now destruct (dict_get (adj self) a).
  - destruct (dict_get (adj self) u) as [n|]; [reflexivity|].
    now destruct (eq_dec b u).
Qed.


(** X5: Only a string or a callable can be registered: with any other symbol,
    and states that unpack, the call raises [TypeError]. *)
Theorem add_transition_rejects_other_symbols (symbol states : pyobj)
    (attrs : option pyobj) (self : automaton) (pair : pyval * pyval) :
  unpack2 states = Ok pair ->
  callable symbol = false ->
  (forall name, symbol <> Val (PStr name)) ->
  add_transition symbol states attrs self = Raise TypeError.
Proof.
  intros Hu Hc Hs. rewrite add_transition_eq, Hu. destruct pair as [a b]. simpl.
  rewrite Hc.
  destruct (call_add_edge a b symbol (attrs_or_empty attrs) self) as [s1|e] eqn:Ea; simpl.
  - destruct symbol as [[z|name|name code|items]|dd]; try reflexivity.
    now destruct (Hs name).
  - apply call_add_edge_raises in Ea. now subst.
Qed.


(** X7: A function registered as a symbol stays on the instance under its
    name.  Registering that name afterwards, as a string, binds the same
    function, now with source and target only: it is not handed [self]. *)
Theorem name_of_registered_callable_binds_without_self
    (name : string) (code : nat) (states1 states2 : pyobj)
    (attrs1 attrs2 : option pyobj) (self self1 self2 : automaton) :
  add_transition (Val (PFunc name code)) states1 attrs1 self = Ok self1 ->
  add_transition (Val (PStr name)) states2 attrs2 self1 = Ok self2 ->
  exists first_state next_state,
    unpack2 states2 = Ok (first_state, next_state) /\
    edge_handler self2 first_state next_state (PStr name)
    = Some (Handler (Partial (Function name code) false first_state next_state)).
Proof.
  intros E1 E2. apply add_transition_edge in E1.
  destruct E1 as (a1 & b1 & k1 & d1 & f1 & _ & _ & _ & _ & Hc1 & Hi1 & _ & _).
  apply add_transition_edge in E2.
  destruct E2 as (a & b & key & d & f & Hu & Hk & _ & Hr & _ & _ & _ & Hg).
  simpl in Hk. inversion Hk; subst key. exists a, b. split; [assumption|].
  assert (Hget : getattr self1 name = Some (Data (PFunc name code))).
  { transitivity (getattr (setattr self name (PFunc name code)) name).
    - unfold getattr. simpl in Hc1, Hi1. now rewrite Hc1, Hi1.
    - apply getattr_setattr_same. }
  simpl in Hr. rewrite Hget in Hr. simpl in Hr. inversion Hr; subst f.
  unfold edge_handler, edge_data, graph_edge. rewrite Hg.
  destruct (eq_dec a a); [|congruence]. destruct (eq_dec b b); [|congruence].
  rewrite dict_get_set_same. apply dict_get_set_same.
Qed.

(** X8: A callable whose name is [current] takes the place of the current
    state when it is registered.  From then on, unless that function happens
    to be a node, firing with a payload that [__call__] can take (no key
    named [self] or [symbol]) raises [KeyError] at the lookup of the
    adjacency, with nothing called and nothing printed; given that no
    registered callable hides a name the engine relies on. *)
Theorem callable_named_current_replaces_state
    (code : nat) (states : pyobj) (attrs : option pyobj) (self self' : automaton) :
  add_transition (Val (PFunc "current" code)) states attrs self = Ok self' ->
  current self' = PFunc "current" code /\
  (unshadowed self' ->
   ~ In (PFunc "current" code) (nodes self') ->
   forall symbol payload,
     clashes call_params payload = false ->
     __call__ symbol payload self' = Raised KeyError self' []).
Proof.
  intros E. apply add_transition_edge in E.
  destruct E as (a & b & key & d & f & _ & _ & _ & _ & Hc & _ & _ & _).
  simpl in Hc. split; [exact Hc|].
  intros _ Hout symbol payload Hpay. apply fire_off_graph; [assumption|]. now rewrite Hc.
Qed.

(** X19: A symbol that is neither a callable nor a string (an integer, a
    tuple) cannot be registered, and the failed call is not undone.  On an
    instance where no registered callable hides a name the engine relies on,
    with states that unpack and attributes that [add_edge] accepts, the call
    raises [TypeError] after [add_edge] has run: both states are nodes, the
    edge is in the graph with the attributes merged into the data it had, no
    handler has been written, and [current] and the instance attributes are
    as before. *)
Theorem add_transition_raise_keeps_edge
    (k : pyval) (states : pyobj) (attrs : option pyobj) (self : automaton)
    (first_state next_state : pyval) (d : kwargs) :
  unshadowed self ->
  unpack2 states = Ok (first_state, next_state) ->
  attrs_or_empty attrs = Dict d ->
  clashes ("self" :: "key" :: add_edge_params) d = false ->
  callable (Val k) = false ->
  (forall name, k <> PStr name) ->
  exists self',
    add_transition_run (Val k) states attrs self = (self', Raise TypeError) /\
    current self' = current self /\ __dict__ self' = __dict__ self /\
    nodes self' = nodes self ++ new_nodes (adj self) first_state next_state /\
    edge_data self' first_state next_state k
    = Some (dict_update (match edge_data self first_state next_state k with
                         | Some old => old
                         | None => []
                         end)
              (map (fun kv => (fst kv, Value (snd kv))) d)) /\
    forall u v key, (u, v, key) <> (first_state, next_state, k) ->
                    edge_data self' u v key = edge_data self u v key.
Proof.
  intros _ Hu Hd Hc Hcall Hk.
  exists (set_adj self (add_edge first_state next_state k d (adj self))).
  split; [|split; [reflexivity|split; [reflexivity|split; [|split]]]].
  - unfold add_transition_run, and_then, lift, get_self, call_add_edge_run.
    rewrite Hu, Hd, Hcall, Hc.
    destruct k as [z|name|name code|items]; try reflexivity.
    now destruct (Hk name).
  - unfold nodes. simpl. apply add_edge_keys_exact.
  - unfold edge_data, graph_edge. simpl. rewrite add_edge_keys.
    destruct (eq_dec first_state first_state); [|congruence].
    destruct (eq_dec next_state next_state); [|congruence].
    apply dict_get_set_same.
  - intros u v key Hne. unfold edge_data, graph_edge. simpl. rewrite add_edge_keys.
    destruct (eq_dec first_state u) as [<-|Hu']; [|reflexivity].
    destruct (eq_dec next_state v) as [<-|Hv]; [|reflexivity].
    destruct (eq_dec k key) as [<-|Hkey]; [congruence|].
    rewrite dict_get_set_other by assumption.
    now destruct (graph_keys (adj self) first_state next_state).
Qed.

(** Registration keeps the names of the engine free when the callables it
    attaches have plain names. *)
Lemma add_transition_unshadowed symbol states attrs self self' :
  unshadowed self ->
  Forall plain (callable_name symbol) ->
  add_transition symbol states attrs self = Ok self' ->
  unshadowed self'.
Proof.
  intros Hs Hp E. apply add_transition_edge in E.
  destruct E as (a & b & key & d & f & _ & _ & _ & _ & _ & Hi & _ & _).
  intros name Hn. rewrite Hi in Hn.
  destruct symbol as [[z|n|n c|items]|dd]; simpl in Hn; try now apply Hs.
  unfold setattr in Hn. destruct (eq_dec n "current"); [now apply Hs|]. simpl in Hn.
  destruct (eq_dec n name) as [<-|Hne].
  - simpl in Hp. now inversion Hp.
  - rewrite dict_get_set_other in Hn by assumption. now apply Hs.
Qed.

Lemma load_unshadowed ts : forall self self',
  unshadowed self ->
  Forall plain (callable_names ts) ->
  load ts self = Ok self' ->
  unshadowed self'.
Proof.
  induction ts as [|t ts IH]; intros self self' Hs; simpl.
  - intros _ E. now inversion E; subst.
  - unfold callable_names. simpl. fold (callable_names ts).
    destruct t as [|a [|b [|c [|d t]]]]; simpl; try (intros Hp E; now apply (IH self)).
    + destruct (add_transition a b None self) as [s1|] eqn:Ea; simpl; [|discriminate].
      intros Hp E. apply Forall_app in Hp. destruct Hp as [Hp1 Hp2].
      apply (IH s1); auto. eapply add_transition_unshadowed; eauto.
    + destruct (add_transition a b (Some c) self) as [s1|] eqn:Ea; simpl; [|discriminate].
      intros Hp E. apply Forall_app in Hp. destruct Hp as [Hp1 Hp2].
      apply (IH s1); auto. eapply add_transition_unshadowed; eauto.
Qed.

End RegistrationMore.

(** ** Registering the same transition twice *)

Section Twice.
Context `{Host}.

Lemma registered_data_again (old : datadict) (new : list (string * attr)) (h : attr) :
  NoDup (dict_keys old) ->
  let data := dict_set (dict_update old new) TRANSITION h in
  dict_set (dict_update data new) TRANSITION h = data.
Proof.
  intros Hnd data.
  assert (Hkeys : dict_keys (dict_update data new) = dict_keys data).
  { apply dict_keys_update_present. intros k Hk. unfold data.
    apply dict_In_keys_set. right. now apply dict_keys_update_incl. }
  assert (Hndd : NoDup (dict_keys data)).
  { unfold data. now apply dict_NoDup_set, dict_NoDup_update. }
  assert (HT : In TRANSITION (dict_keys data)).
  { unfold data. apply dict_In_keys_set. now left. }
  apply dict_ext.
  - apply dict_NoDup_set. now rewrite Hkeys.
  - rewrite dict_keys_set.
    assert (Hm : dict_mem (dict_update data new) TRANSITION = true).
    { apply dict_mem_In. now rewrite Hkeys. }
    now rewrite Hm.
  - intros k. destruct (eq_dec TRANSITION k) as [<-|Hne].
    + unfold data. now rewrite !dict_get_set_same.
    + rewrite dict_get_set_other by assumption. rewrite dict_get_update.
      unfold data at 1 2. rewrite dict_get_set_other by assumption.
      rewrite dict_get_update.
      now destruct (dict_get (rev new) k).
Qed.

Lemma getattr_ext self self' name :
  current self = current self' -> __dict__ self = __dict__ self' ->
  getattr self name = getattr self' name.
Proof. intros Hc Hd. unfold getattr. now rewrite Hc, Hd. Qed.

Lemma resolve_ext symbol self self' :
  current self = current self' -> __dict__ self = __dict__ self' ->
  resolve symbol self = resolve symbol self'.
Proof.
  intros Hc Hd. unfold resolve, default_callee, getattr. now rewrite Hc, Hd.
Qed.

Lemma attach_again symbol self self1 :
  current self1 = current (attach symbol self) ->
  __dict__ self1 = __dict__ (attach symbol self) ->
  current (attach symbol self1) = current self1 /\
  __dict__ (attach symbol self1) = __dict__ self1.
Proof.
  destruct symbol as [[z|name|name code|items]|dd]; simpl; auto.
  unfold setattr. destruct (eq_dec name "current"); simpl; intros Hc Hd; auto.
  split; [reflexivity|]. rewrite Hd. apply dict_set_set_same.
Qed.

Lemma resolve_needs_name_or_callable symbol self f :
  resolve symbol self = Ok f ->
  callable symbol = true \/ exists name, symbol = Val (PStr name).
Proof.
  destruct symbol as [[z|name|name code|items]|dd]; simpl; try discriminate; eauto.
Qed.

(** X4: Registering a transition a second time, with the same arguments,
    returns again and changes nothing that can be read off the automaton:
    the nodes, the data of every edge, [current] and the instance attributes
    are those left by the first registration.  (The data of the edges before
    the first registration are dictionaries: their keys are distinct.) *)
Theorem add_transition_twice (symbol states : pyobj) (attrs : option pyobj)
    (self self1 : automaton) :
  add_transition symbol states attrs self = Ok self1 ->
  data_wf (adj self) ->
  exists self2,
    add_transition symbol states attrs self1 = Ok self2 /\
    current self2 = current self1 /\
    __dict__ self2 = __dict__ self1 /\
    nodes self2 = nodes self1 /\
    forall u v k, edge_data self2 u v k = edge_data self1 u v k.
Proof.
  intros E1 Hdata.
  destruct (add_transition_inv _ _ _ _ E1)
    as (a & b & key & d & f & s0 & Hu & Hk & Hd & Hclash & Hr & _ & _).
  destruct (add_transition_edge _ _ _ _ E1)
    as (a' & b' & key' & d' & f' & Hu' & Hk' & Hd' & Hr' & Hc1 & Hi1 & Hn1 & Hg1).
  rewrite Hu in Hu'. injection Hu' as <- <-.
  rewrite Hk in Hk'. injection Hk' as <-.
  rewrite Hd in Hd'. injection Hd' as <-.
  rewrite Hr in Hr'. injection Hr' as <-.
  destruct (attach_again symbol self self1 Hc1 Hi1) as [Hca Hia].
  assert (Hr1 : resolve symbol (attach symbol self1) = Ok f).
  { rewrite <- Hr. apply resolve_ext; congruence. }
  pose proof (resolve_needs_name_or_callable _ _ Hr) as Hshape.
  destruct (@add_transition_returns _ symbol states attrs self1 a b d f
              Hshape Hu Hd Hclash Hr1) as [self2 E2].
  exists self2. split; [exact E2|].
  destruct (add_transition_adj _ _ _ _ E2)
    as (a2 & b2 & key2 & d2 & f2 & Hu2 & _ & _ & _ & Hn2 & _).
  rewrite Hu in Hu2. injection Hu2 as <- <-.
  destruct (add_transition_edge _ _ _ _ E2)
    as (a3 & b3 & key3 & d3 & f3 & Hu3 & Hk3 & Hd3 & Hr3 & Hc2 & Hi2 & _ & Hg2).
  rewrite Hu in Hu3. injection Hu3 as <- <-.
  rewrite Hk in Hk3. injection Hk3 as <-.
  rewrite Hd in Hd3. injection Hd3 as <-.
  rewrite Hr1 in Hr3. injection Hr3 as <-.
  split; [congruence|]. split; [congruence|]. split.
  - rewrite Hn2. unfold new_nodes.
    assert (Ha : In a (dict_keys (adj self1))) by (apply Hn1; auto).
    assert (Hb : In b (dict_keys (adj self1))) by (apply Hn1; auto).
    destruct (in_dec pyval_eq_dec a (dict_keys (adj self1))); [|tauto].
    destruct (in_dec pyval_eq_dec b (a :: dict_keys (adj self1))) as [|n];
      [now rewrite app_nil_r|].
    exfalso. apply n. now right.
  - intros u v k. unfold edge_data, graph_edge. rewrite Hg2.
    destruct (eq_dec a u) as [<-|Hau]; [|reflexivity].
    destruct (eq_dec b v) as [<-|Hbv]; [|reflexivity].
    pose proof (Hg1 a b) as Hab.
    destruct (eq_dec a a); [|congruence]. destruct (eq_dec b b); [|congruence].
    rewrite Hab. rewrite dict_set_set_same.
    destruct (eq_dec key k) as [<-|Hkk].
    + rewrite !dict_get_set_same. f_equal.
      unfold registered_data at 1. unfold graph_edge. rewrite Hab, dict_get_set_same.
      unfold registered_data. apply registered_data_again.
      specialize (Hdata a b key).
      destruct (graph_edge (adj self) a b key); [now apply Hdata | constructor].
    + now rewrite !dict_get_set_other by assumption.
Qed.

End Twice.

(** ** The other constructors of error.py *)

(** X18: [InvalidStartingState] and [InvalidAcceptingStates] format their one
    argument with a single [%s].  A tuple is taken for the argument list of
    the format: the exception can be built from a tuple only when it has
    exactly one item, and the message then shows the item, not the tuple;
    any other tuple raises [TypeError].  A value that is no tuple is shown
    as it is. *)
Theorem error_of_tuple_needs_one_item (x : pyval) :
  Error.InvalidStartingState x
  = match x with
    | PTuple [y] =>
        Ok (AutomatonError "InvalidStartingState"
              [Message "%s is not a valid starting state." [y]])
    | PTuple _ => Raise TypeError
    | _ =>
        Ok (AutomatonError "InvalidStartingState"
              [Message "%s is not a valid starting state." [x]])
    end /\
  Error.InvalidAcceptingStates x
  = match x with
    | PTuple [y] =>
        Ok (AutomatonError "InvalidAcceptingStates"
              [Message "One or more invalid accepting states: %s" [y]])
    | PTuple _ => Raise TypeError
    | _ =>
        Ok (AutomatonError "InvalidAcceptingStates"
              [Message "One or more invalid accepting states: %s" [x]])
    end.
Proof.
  unfold Error.InvalidStartingState, Error.InvalidAcceptingStates, Error.percent.
  destruct x as [z|s0|n c|items]; try (split; reflexivity).
  destruct items as [|a [|b items]]; split; reflexivity.
Qed.

(** ** What every graph built by registration looks like *)

Section Shapes.
Context `{Host}.

Lemma load_invariant (P : adjacency -> Prop) :
  (forall symbol states attrs self self',
      P (adj self) -> add_transition symbol states attrs self = Ok self' ->
      P (adj self')) ->
  forall ts self self', P (adj self) -> load ts self = Ok self' -> P (adj self').
Proof.
  intros Hstep. induction ts as [|t ts IH]; intros self self' HP; simpl.
  - intros E. inversion E; subst. assumption.
  - destruct t as [|a [|b [|c [|d t]]]]; simpl; try (now apply IH).
    + destruct (add_transition a b None self) as [s1|] eqn:Ea; simpl; [|discriminate].
      apply IH. eapply Hstep; eauto.
    + destruct (add_transition a b (Some c) self) as [s1|] eqn:Ea; simpl; [|discriminate].
      apply IH. eapply Hstep; eauto.
Qed.

Lemma resolve_symbol_shape symbol self f key :
  resolve symbol self = Ok f -> edge_key symbol = Some key ->
  exists name, key = PStr name.
Proof.
  destruct symbol as [[z|name|name code|items]|dd]; simpl; try discriminate;
    intros _ E; inversion E; eauto.
Qed.

Lemma add_transition_edges_bound symbol states attrs self self' :
  edges_bound (adj self) ->
  add_transition symbol states attrs self = Ok self' ->
  edges_bound (adj self').
Proof.
  intros Hb E. apply add_transition_edge in E.
  destruct E as (a & b & key & d & f & _ & Hk & _ & Hr & _ & _ & Hn & Hg).
  unfold nodes in Hn. intros u v k data. unfold graph_edge. rewrite Hg, !Hn.
  destruct (eq_dec a u) as [<-|Hu]; [destruct (eq_dec b v) as [<-|Hv]|].
  - destruct (eq_dec key k) as [<-|Hk'].
    + rewrite dict_get_set_same. intros E. inversion E; subst data; clear E.
      split; [auto|]. split; [auto|]. split; [eapply resolve_symbol_shape; eauto|].
      eexists. unfold registered_data. rewrite dict_get_set_same. auto.
    + rewrite dict_get_set_other by assumption. intros E.
      specialize (Hb a b k data). unfold graph_edge in Hb.
      destruct (graph_keys (adj self) a b); [|discriminate].
      destruct (Hb E) as (? & ? & ? & ?). auto.
  - intros E. destruct (Hb a v k data) as (? & ? & ? & ?); auto.
  - intros E. destruct (Hb u v k data) as (? & ? & ? & ?); auto.
Qed.

Lemma add_transition_targets_wf symbol states attrs self self' :
  targets_wf (adj self) ->
  add_transition symbol states attrs self = Ok self' ->
  targets_wf (adj self').
Proof.
  intros Hwf E. apply add_transition_adj in E.
  destruct E as (a & b & key & d & f & _ & _ & _ & _ & _ & Hg).
  intros u nbrs. rewrite Hg. destruct (eq_dec a u) as [<-|Hu].
  - intros E. inversion E; subst nbrs. apply dict_NoDup_set.
    destruct (dict_get (adj self) a) as [n|] eqn:Ea; [eapply Hwf; eauto | constructor].
  - destruct (dict_get (adj self) u) as [n|] eqn:Eu.
    + intros E. inversion E; subst. eapply Hwf; eauto.
    + destruct (eq_dec b u); intros E; inversion E. constructor.
Qed.

Lemma loaded_edges_bound ts more s0 keywords self self' :
  networkx_init keywords = Ok [] ->
  __init__ ts s0 keywords = Ok self -> load more self = Ok self' ->
  edges_bound (adj self').
Proof.
  intros Hkw Hinit Hmore. unfold __init__ in Hinit.
  rewrite Hkw in Hinit. cbn [bind] in Hinit.
  assert (Hb : forall l s s', edges_bound (adj s) -> load l s = Ok s' ->
                              edges_bound (adj s')).
  { apply (load_invariant edges_bound). intros. eapply add_transition_edges_bound; eauto. }
  eapply Hb; [|exact Hmore]. eapply Hb; [|exact Hinit].
  intros u v k data E. discriminate.
Qed.

(** X9: Take an automaton that the constructor has built, with keyword
    arguments that hand networkx no graph data, and on which further
    transitions have been registered, every registration having returned and
    no callable symbol being named after an attribute that the engine relies
    on.  Every edge is keyed by a string, joins two nodes and holds under
    [TRANSITION] a handler bound to its own source and target: no edge is
    without a handler.  (A registration that raises can leave an edge
    without one.) *)
Theorem registered_edges_are_bound
    (new_transitions more : list (list pyobj)) (initial_state : pyval)
    (keywords : kwargs) (self self' : automaton) :
  networkx_init keywords = Ok [] ->
  Forall plain (callable_names (new_transitions ++ more)) ->
  __init__ new_transitions initial_state keywords = Ok self ->
  load more self = Ok self' ->
  edges_bound (adj self').
Proof. intros Hkw _. now apply loaded_edges_bound. Qed.

Lemma add_transition_data_wf symbol states attrs self self' :
  data_wf (adj self) ->
  add_transition symbol states attrs self = Ok self' ->
  data_wf (adj self').
Proof.
  intros Hwf E. apply add_transition_edge in E.
  destruct E as (a & b & key & d & f & _ & _ & _ & _ & _ & _ & _ & Hg).
  intros u v k old. unfold graph_edge. rewrite Hg.
  destruct (eq_dec a u) as [<-|Hu]; [destruct (eq_dec b v) as [<-|Hv]|];
    try apply Hwf.
  destruct (eq_dec key k) as [<-|Hk].
  - rewrite dict_get_set_same. intros E. inversion E; subst old.
    unfold registered_data. apply dict_NoDup_set, dict_NoDup_update.
    specialize (Hwf a b key).
    destruct (graph_edge (adj self) a b key); [now apply Hwf | constructor].
  - rewrite dict_get_set_other by assumption.
    specialize (Hwf a b k old). unfold graph_edge in Hwf.
    destruct (graph_keys (adj self) a b); [exact Hwf | discriminate].
Qed.

Lemma loaded_data_wf ts more s0 keywords self self' :
  networkx_init keywords = Ok [] ->
  __init__ ts s0 keywords = Ok self -> load more self = Ok self' ->
  data_wf (adj self').
Proof.
  intros Hkw Hinit Hmore. unfold __init__ in Hinit.
  rewrite Hkw in Hinit. cbn [bind] in Hinit.
  assert (Hb : forall l s s', data_wf (adj s) -> load l s = Ok s' -> data_wf (adj s')).
  { apply (load_invariant data_wf). intros. eapply add_transition_data_wf; eauto. }
  eapply Hb; [|exact Hmore]. eapply Hb; [|exact Hinit].
  intros u v k old E. discriminate.
Qed.

Lemma loaded_targets_wf ts more s0 keywords self self' :
  networkx_init keywords = Ok [] ->
  __init__ ts s0 keywords = Ok self -> load more self = Ok self' ->
  targets_wf (adj self').
Proof.
  intros Hkw Hinit Hmore. unfold __init__ in Hinit.
  rewrite Hkw in Hinit. cbn [bind] in Hinit.
  assert (Hb : forall l s s', targets_wf (adj s) -> load l s = Ok s' ->
                              targets_wf (adj s')).
  { apply (load_invariant targets_wf). intros. eapply add_transition_targets_wf; eauto. }
  eapply Hb; [|exact Hmore]. eapply Hb; [|exact Hinit].
  intros u nbrs E. discriminate.
Qed.

(** X10: Building from a list is registering its descriptors one by one: a
    descriptor at the end of the list has the effect of [add_transition]
    called on the automaton built from the descriptors before it. *)
Theorem init_is_incremental
    (new_transitions : list (list pyobj)) (initial_state : pyval) (keywords : kwargs)
    (symbol states attr_dict : pyobj) :
  __init__ (new_transitions ++ [[symbol; states]]) initial_state keywords
  = (self <- __init__ new_transitions initial_state keywords ;;
     add_transition symbol states None self) /\
  __init__ (new_transitions ++ [[symbol; states; attr_dict]]) initial_state keywords
  = (self <- __init__ new_transitions initial_state keywords ;;
     add_transition symbol states (Some attr_dict) self).
Proof.
  unfold __init__.
  destruct (networkx_init keywords) as [g|e]; cbn [bind]; [|split; reflexivity].
  rewrite !load_app. simpl.
  split; destruct (load new_transitions _) as [s|e]; simpl;
    try reflexivity.
  - now destruct (add_transition symbol states None s).
  - now destruct (add_transition symbol states (Some attr_dict) s).
Qed.

(** X11: A descriptor that cannot be registered aborts the construction with
    its exception, whatever comes after it in the list. *)
Theorem init_aborts_on_failing_descriptor
    (before after : list (list pyobj)) (initial_state : pyval) (keywords : kwargs)
    (self : automaton) (symbol states attr_dict : pyobj) (e : exn) :
  __init__ before initial_state keywords = Ok self ->
  (add_transition symbol states None self = Raise e ->
   __init__ (before ++ [symbol; states] :: after) initial_state keywords = Raise e) /\
  (add_transition symbol states (Some attr_dict) self = Raise e ->
   __init__ (before ++ [symbol; states; attr_dict] :: after) initial_state keywords
   = Raise e).
Proof.
  unfold __init__. intros Hinit.
  destruct (networkx_init keywords) as [g|e0]; cbn [bind] in *; [|discriminate].
  split; intros Hraise; rewrite load_app, Hinit; simpl; now rewrite Hraise.
Qed.

End Shapes.

(** ** More on firing *)

Section FiringMore.
Context `{Host}.

Lemma fire_loop_skip targets symbol payload pre : forall rest self trace,
  (forall t keys, In (t, keys) pre -> dict_mem keys symbol = false) ->
  fire_loop targets (pre ++ rest) symbol payload self trace
  = fire_loop targets rest symbol payload self trace.
Proof.
  induction pre as [|[t keys] pre IH]; simpl; intros rest self trace Hno; [reflexivity|].
  rewrite (Hno t keys) by auto. apply IH. intros t' k' Hin. eapply Hno; eauto.
Qed.

(** X20: A keyword argument of a firing cannot be named [self] or
    [symbol]: these are the parameters of [__call__], and the call raises
    [TypeError] before its body starts, whatever the automaton and the
    symbol.  No handler is called, nothing is printed and the automaton is as
    before. *)
Theorem fire_rejects_keyword_named_after_parameter
    (self : automaton) (symbol : pyval) (payload : kwargs) :
  In "self" (dict_keys payload) \/ In "symbol" (dict_keys payload) ->
  __call__ symbol payload self = Raised TypeError self [].
Proof.
  intros Hin. unfold __call__.
  assert (Hc : clashes call_params payload = true).
  { unfold clashes. apply existsb_exists. unfold dict_keys in Hin.
    destruct Hin as [Hin|Hin]; apply in_map_iff in Hin; destruct Hin as ([k v] & Hk & Hin);
      simpl in Hk; exists (k, v); (split; [exact Hin|]); simpl;
      match goal with |- (if ?c then _ else _) = _ => destruct c as [|n] end;
      try reflexivity; exfalso; apply n; simpl; auto. }
  now rewrite Hc.
Qed.

(** X12: An automaton built, with keyword arguments that hand networkx no
    graph data, with an initial state that no descriptor mentions (and no
    callable symbol named [current] or after an attribute that the engine
    relies on) cannot be fired: every firing with a payload that [__call__]
    can take (no key named [self] or [symbol]) raises [KeyError] at the
    lookup of the adjacency, with nothing called and nothing printed. *)
Theorem fire_from_undeclared_state_raises
    (new_transitions : list (list pyobj)) (initial_state : pyval) (keywords : kwargs)
    (self : automaton) (symbol : pyval) (payload : kwargs) :
  networkx_init keywords = Ok [] ->
  __init__ new_transitions initial_state keywords = Ok self ->
  ~ In initial_state (declared_states new_transitions) ->
  ~ In "current" (callable_names new_transitions) ->
  Forall plain (callable_names new_transitions) ->
  clashes call_params payload = false ->
  __call__ symbol payload self = Raised KeyError self [].
Proof.
  intros Hkw Hinit Hout Hname _ Hpay. unfold __init__ in Hinit.
  rewrite Hkw in Hinit. cbn [bind] in Hinit.
  apply fire_off_graph; [assumption|].
  rewrite (load_current _ _ Hinit Hname), (load_nodes _ _ Hinit). simpl. tauto.
Qed.

(** X13: An edge that has nothing under [TRANSITION], as one that networkx's
    own [add_edge] has put into the graph: when it is the first edge that the
    fired symbol matches, firing with a payload that [__call__] can take
    raises [KeyError] before any handler is called; given that no registered
    callable hides a name the engine relies on. *)
Theorem fire_edge_without_handler_raises
    (self : automaton) (symbol : pyval) (payload : kwargs)
    (pre post : nbrdict) (t : pyval) (keys : keydict) (data : datadict) :
  unshadowed self ->
  clashes call_params payload = false ->
  dict_get (adj self) (current self) = Some (pre ++ (t, keys) :: post) ->
  NoDup (dict_keys (pre ++ (t, keys) :: post)) ->
  (forall t' keys', In (t', keys') pre -> dict_mem keys' symbol = false) ->
  dict_get keys symbol = Some data ->
  dict_get data TRANSITION = None ->
  __call__ symbol payload self = Raised KeyError self [].
Proof.
  intros _ Hpay Hadj Hnd Hpre Hkey Hnone. unfold __call__. rewrite Hpay, Hadj.
  destruct (pre ++ (t, keys) :: post) as [|x l] eqn:El; [now destruct pre|].
  rewrite <- El in *. rewrite fire_loop_skip by assumption. simpl.
  unfold dict_mem. rewrite Hkey.
  rewrite (dict_get_In _ t keys Hnd) by (apply in_app_iff; simpl; auto).
  now rewrite Hkey, Hnone.
Qed.


(** X15: Take an automaton that the constructor has built, with keyword
    arguments that hand networkx no graph data, and on which further
    transitions have been registered, every registration having returned and
    no callable symbol being named after an attribute that the engine relies
    on.  Only a string can trigger anything: firing a symbol of another kind
    from a node, with a payload that [__call__] can take, returns the
    automaton as it is, without calling a handler. *)
Theorem fire_non_string_symbol_calls_nothing
    (new_transitions more : list (list pyobj)) (initial_state : pyval)
    (keywords : kwargs) (self self' : automaton) (symbol : pyval) (payload : kwargs) :
  networkx_init keywords = Ok [] ->
  Forall plain (callable_names (new_transitions ++ more)) ->
  __init__ new_transitions initial_state keywords = Ok self ->
  load more self = Ok self' ->
  In (current self') (nodes self') ->
  (forall name, symbol <> PStr name) ->
  clashes call_params payload = false ->
  exists trace,
    __call__ symbol payload self' = Returned self' trace /\ calls trace = [].
Proof.
  intros Hkw _ Hinit Hmore Hin Hsym Hpay.
  pose proof (@loaded_edges_bound _ _ _ _ _ _ _ Hkw Hinit Hmore) as Hb.
  pose proof (@loaded_targets_wf _ _ _ _ _ _ _ Hkw Hinit Hmore) as Hwf.
  destruct (dict_In_keys_get _ _ Hin) as [targets Ht].
  unfold __call__. rewrite Hpay, Ht. destruct targets as [|x l] eqn:El.
  - eexists. split; reflexivity.
  - rewrite <- El in *. exists []. split; [|reflexivity].
    apply fire_loop_no_match. intros t keys Hitem.
    unfold dict_mem. destruct (dict_get keys symbol) as [data|] eqn:Ek; [|reflexivity].
    exfalso. destruct (Hb (current self') t symbol data) as (_ & _ & (name & ->) & _).
    + unfold graph_edge, graph_keys. rewrite Ht.
      rewrite (dict_get_In _ t keys (Hwf _ _ Ht) Hitem). exact Ek.
    + now destruct (Hsym name).
Qed.

Lemma matching_edges_none (l : nbrdict) (key : pyval) :
  (forall v ks, In (v, ks) l -> dict_get ks key = None) ->
  matching_edges l key = [].
Proof.
  induction l as [|[v ks] l IH]; simpl; intros Hno; [reflexivity|].
  rewrite (Hno v ks) by auto. apply IH. intros v' ks' Hin. eapply Hno; eauto.
Qed.

Lemma matching_edges_single (l : nbrdict) (key next_state : pyval)
    (keys : keydict) (data : datadict) :
  NoDup (dict_keys l) ->
  dict_get l next_state = Some keys ->
  dict_get keys key = Some data ->
  (forall v ks, In (v, ks) l -> v <> next_state -> dict_get ks key = None) ->
  matching_edges l key = [(next_state, data)].
Proof.
  induction l as [|[v ks] l IH]; simpl; intros Hnd Hget Hkey Hno; [discriminate|].
  inversion Hnd as [|x xs Hx Hxs]; subst.
  destruct (eq_dec v next_state) as [->|Hne].
  - inversion Hget; subst ks. rewrite Hkey. simpl. f_equal.
    apply matching_edges_none. intros v' ks' Hin. apply (Hno v' ks'); [auto|].
    intros ->. apply Hx. change (In (fst (next_state, ks')) (map fst l)). now apply in_map.
  - rewrite (Hno v ks) by auto. simpl. apply IH; auto.
    intros v' ks' Hin. apply Hno. auto.
Qed.

(** Firing the key of a transition just registered, from its source, when
    no other edge from that source has this key: the driver calls the
    registered partial, once. *)
Lemma fire_registered symbol states attrs self self' first_state next_state key f payload :
  add_transition symbol states attrs self = Ok self' ->
  targets_wf (adj self) ->
  unpack2 states = Ok (first_state, next_state) ->
  edge_key symbol = Some key ->
  resolve symbol (attach symbol self) = Ok f ->
  (forall v, v <> next_state -> graph_edge (adj self) first_state v key = None) ->
  clashes call_params payload = false ->
  __call__ key payload (set_current self' first_state)
  = fired_once (Handler (Partial f (callable symbol) first_state next_state)) payload
      (call_partial (Partial f (callable symbol) first_state next_state)
         payload (set_current self' first_state)).
Proof.
  intros E Hwf Hu Hk Hr Hother Hpay. apply add_transition_adj in E.
  destruct E as (a & b & key' & d & f' & Hu' & Hk' & _ & Hr' & _ & Hg).
  rewrite Hu in Hu'. inversion Hu'; subst a b; clear Hu'.
  rewrite Hk in Hk'. inversion Hk'; subst key'; clear Hk'.
  rewrite Hr in Hr'. inversion Hr'; subst f'; clear Hr'.
  pose proof (Hg first_state) as Ht. destruct (eq_dec first_state first_state); [|congruence].
  set (N0 := match dict_get (adj self) first_state with Some n => n | None => [] end) in *.
  set (p := Partial f (callable symbol) first_state next_state) in *.
  set (K' := dict_set _ key (registered_data _ _ _ key d p)) in Ht.
  assert (Hnd0 : NoDup (dict_keys N0)).
  { unfold N0. destruct (dict_get (adj self) first_state) eqn:E0;
      [eapply Hwf; eauto | constructor]. }
  assert (Hnd : NoDup (dict_keys (dict_set N0 next_state K'))) by now apply dict_NoDup_set.
  assert (Hm : matching_edges (dict_set N0 next_state K') key
               = [(next_state, registered_data (adj self) first_state next_state key d p)]).
  { apply matching_edges_single with K'; auto.
    - apply dict_get_set_same.
    - apply dict_get_set_same.
    - intros v ks Hin Hv. apply (dict_get_In _ _ _ Hnd) in Hin.
      rewrite dict_get_set_other in Hin by congruence.
      specialize (Hother v Hv). unfold graph_edge, graph_keys in Hother.
      unfold N0 in Hin. destruct (dict_get (adj self) first_state); [|discriminate].
      now rewrite Hin in Hother. }
  rewrite (@call_invoke_all _ (set_current self' first_state) key payload
             (dict_set N0 next_state K') [Handler p]).
  - simpl. unfold fired_once.
    now destruct (call_partial p payload (set_current self' first_state)) as [[s out] [err|]].
  - exact Hpay.
  - exact Ht.
  - intros E. apply (f_equal (fun l => dict_get l next_state)) in E.
    rewrite dict_get_set_same in E. discriminate.
  - exact Hnd.
  - rewrite Hm. constructor; [|constructor]. unfold has_handler, registered_data. simpl.
    apply dict_get_set_same.
Qed.


(** X17: Register a name that neither the instance nor its class answers
    to, on an instance where no registered callable hides a name the engine
    relies on, then fire it from the source (no other edge from there has
    that key) with a payload that [__call__] and [_default] can take (no key
    named [self], [symbol], [current_state] or [next_state]): the automaton
    moves to the target, and the default handler has printed its two
    lines. *)
Theorem fire_registered_default
    (name : string) (states : pyobj) (attrs : option pyobj)
    (self self' : automaton) (first_state next_state : pyval) (payload : kwargs) :
  unshadowed self ->
  add_transition (Val (PStr name)) states attrs self = Ok self' ->
  targets_wf (adj self) ->
  unpack2 states = Ok (first_state, next_state) ->
  getattr self name = None ->
  default_callee self = Ok (Bound Default) ->
  clashes call_params payload = false ->
  clashes default_params payload = false ->
  (forall v, v <> next_state -> graph_edge (adj self) first_state v (PStr name) = None) ->
  __call__ (PStr name) payload (set_current self' first_state)
  = Returned (set_current self' next_state)
      [Called (Handler (default_partial first_state next_state)) payload;
       Printed (Moving first_state next_state);
       Printed (Attributes payload)].
Proof.
  intros _ E Hwf Hu Hnone Hdef Hpay Hclash Hother.
  assert (Hr : resolve (Val (PStr name)) (attach (Val (PStr name)) self)
               = Ok (Bound Default)).
  { simpl. now rewrite Hnone. }
  rewrite (@fire_registered _ _ _ _ _ _ _ _ _ payload E Hwf Hu eq_refl Hr Hother Hpay).
  change (Partial (Bound Default) (callable (Val (PStr name))) first_state next_state)
    with (default_partial first_state next_state).
  rewrite call_default by assumption. reflexivity.
Qed.

End FiringMore.

(** * The examples *)

Lemma turnstile_built (s : pyval) :
  __init__ (H := Turnstile.host) Turnstile.transitions s [] = Ok (Turnstile.at_state s).
Proof. reflexivity. Qed.

Lemma fork_built (s : pyval) :
  __init__ (H := bare) Fork.transitions s [] = Ok (Fork.at_state s).
Proof. reflexivity. Qed.

(** The demo of the module: a coin of the wrong value leaves the turnstile
    locked, a quarter unlocks it, a push locks it again. *)
Example turnstile_demo :
  exists t1 t2 t3,
    __call__ (H := Turnstile.host) (PStr "enter_coin") []
      (Turnstile.at_state Turnstile.locked)
    = Returned (Turnstile.at_state Turnstile.locked) t1 /\
    __call__ (H := Turnstile.host) (PStr "enter_coin") [("coin_value", PInt 25)]
      (Turnstile.at_state Turnstile.locked)
    = Returned (Turnstile.at_state Turnstile.unlocked) t2 /\
    __call__ (H := Turnstile.host) (PStr "push") []
      (Turnstile.at_state Turnstile.unlocked)
    = Returned (Turnstile.at_state Turnstile.locked) t3.
Proof. do 3 eexists. repeat split; reflexivity. Qed.

(** Registering [slam] on the live turnstile and firing it. *)
Example turnstile_slam :
  exists self' self'' trace,
    add_transition (H := Turnstile.host) (Val (PFunc "slam" Turnstile.slam))
      (Val (PTuple [Turnstile.locked; Turnstile.broken])) (Some (Dict []))
      (Turnstile.at_state Turnstile.locked) = Ok self' /\
    __call__ (H := Turnstile.host) (PStr "slam") [] self' = Returned self'' trace /\
    current self'' = Turnstile.broken.
Proof. do 3 eexists. repeat split; reflexivity. Qed.

(** The names of networkx are attributes of the instance.  The symbol
    [has_edge] gets the method of networkx for a handler, and firing it
    leaves [current] where it is.  The symbol [add_transition] gets the
    method of [FiniteAutomaton].  The symbol [adj], whose value cannot be
    called, cannot be registered. *)
Example library_names_are_attributes :
  (exists self' trace,
      add_transition (H := bare) (Val (PStr "has_edge"))
        (Val (PTuple [Fork.b; Fork.c])) None (Fork.at_state Fork.b) = Ok self' /\
      edge_handler self' Fork.b Fork.c (PStr "has_edge")
      = Some (Handler (Partial (Bound (Inherited "has_edge")) false Fork.b Fork.c)) /\
      __call__ (H := bare) (PStr "has_edge") [] self' = Returned self' trace /\
      current self' = Fork.b) /\
  (exists self',
      add_transition (H := bare) (Val (PStr "add_transition"))
        (Val (PTuple [Fork.b; Fork.c])) None (Fork.at_state Fork.b) = Ok self' /\
      edge_handler self' Fork.b Fork.c (PStr "add_transition")
      = Some (Handler (Partial (Bound (Inherited "add_transition")) false Fork.b Fork.c))) /\
  add_transition (H := bare) (Val (PStr "adj"))
    (Val (PTuple [Fork.a; Fork.b])) None (Fork.at_state Fork.a) = Raise TypeError.
Proof.
  split; [do 2 eexists; repeat split; reflexivity|].
  split; [eexists; split; reflexivity | reflexivity].
Qed.

Lemma fork_unshadowed (s : pyval) : unshadowed (H := bare) (Fork.at_state s).
Proof. intros name Hn. simpl in Hn. congruence. Qed.


(** ** The theorems at concrete automata *)

(** C1 on the fork: built with [a] as initial state and fired twice, the
    first time with a payload that makes the default handler raise. *)
Lemma current_is_a_node_fork :
  In (current (Fork.at_state Fork.a)) (nodes (Fork.at_state Fork.a)) /\
  In (current (Fork.at_state Fork.c)) (nodes (Fork.at_state Fork.c)).
Proof.
  apply (@current_is_a_node bare Fork.transitions Fork.a []
           [(Fork.go, [("next_state", PInt 0)]); (Fork.go, [])]
           (Fork.at_state Fork.a) (Fork.at_state Fork.c)
           [Called (Handler (default_partial Fork.a Fork.b)) [("next_state", PInt 0)];
            Called (Handler (default_partial Fork.a Fork.b)) [];
            Printed (Moving Fork.a Fork.b); Printed (Attributes []);
            Called (Handler (default_partial Fork.a Fork.c)) [];
            Printed (Moving Fork.a Fork.c); Printed (Attributes [])]).
  - reflexivity.
  - reflexivity.
  - simpl. auto.
  - simpl. tauto.
  - simpl. constructor.
  - reflexivity.
  - simpl. intros h kw [E|[E|[E|[]]]]; inversion E; eexists _, _; reflexivity.
Defined.

(** C2 on the turnstile started in a state that is no node. *)
Lemma init_never_rejects_initial_state_turnstile :
  (forall x, In x (nodes (Turnstile.at_state (PStr "open")))
             <-> In x (declared_states Turnstile.transitions)) /\
  (~ In "current" (callable_names Turnstile.transitions) ->
   current (Turnstile.at_state (PStr "open")) = PStr "open").
Proof.
  exact (@init_never_rejects_initial_state Turnstile.host
           Turnstile.transitions (PStr "open") [] eq_refl (Forall_nil _)).
Defined.


(** C4 on the turnstile: the symbol [push] has no attribute behind it and
    gets the default handler. *)
Lemma handler_resolution_order_push :
  exists self',
    add_transition (H := Turnstile.host) (Val (PStr "push"))
      (Val (PTuple [Turnstile.unlocked; Turnstile.locked])) None
      (Turnstile.at_state Turnstile.locked) = Ok self' /\
    edge_handler self' Turnstile.unlocked Turnstile.locked (PStr "push")
    = Some (Handler (default_partial Turnstile.unlocked Turnstile.locked)).
Proof.
  eexists. split; [reflexivity|].
  destruct (@handler_resolution_order Turnstile.host (Val (PStr "push"))
              (Val (PTuple [Turnstile.unlocked; Turnstile.locked])) None
              (Turnstile.at_state Turnstile.locked) _ eq_refl)
    as (first_state & next_state & key & f & Hu & Hk & Hh & _ & Hf & _).
  simpl in Hu, Hk, Hf. injection Hu as <- <-. injection Hk as <-. injection Hf as <-.
  exact Hh.
Defined.

(** C5 on the fork stopped in [b]. *)
Lemma fire_no_outgoing_edges_fork :
  dict_get (adj (Fork.at_state Fork.b)) (current (Fork.at_state Fork.b)) = Some [] /\
  exists trace,
    __call__ (H := bare) Fork.go [("speed", PInt 3)] (Fork.at_state Fork.b)
    = Returned (Fork.at_state Fork.b) trace /\
    printed trace = [Text "Failure to transition: no available connection!"] /\
    calls trace = [].
Proof.
  split; [reflexivity|].
  apply (@fire_no_outgoing_edges bare); [apply fork_unshadowed | reflexivity | reflexivity].
Defined.

(** C6 on the fork: nothing leaves [a] under the symbol [halt]. *)
Lemma fire_unmatched_symbol_silent_fork :
  __call__ (H := bare) (PStr "halt") [("speed", PInt 3)] (Fork.at_state Fork.a)
  = Returned (Fork.at_state Fork.a) [].
Proof.
  apply (@fire_unmatched_symbol_silent bare (Fork.at_state Fork.a) (PStr "halt")
           [("speed", PInt 3)] Fork.targets).
  - apply fork_unshadowed.
  - reflexivity.
  - reflexivity.
  - discriminate.
  - intros t keys [E|[E|[]]]; inversion E; reflexivity.
Defined.


(** C9 on the fork: the caller's entry under [TRANSITION] is gone. *)
Lemma add_transition_stores_handler_fork :
  exists self' data h,
    add_transition (H := bare) (Val Fork.go) (Val (PTuple [Fork.a; Fork.b]))
      (Some (Dict [(TRANSITION, PInt 7); ("cost", PInt 2)]))
      (Fork.at_state Fork.a) = Ok self' /\
    edge_data self' Fork.a Fork.b Fork.go = Some data /\
    dict_get data TRANSITION = Some (Handler h) /\
    p_first h = Fork.a /\ p_next h = Fork.b.
Proof.
  destruct (@add_transition_stores_handler bare (Val Fork.go)
              (Val (PTuple [Fork.a; Fork.b]))
              (Some (Dict [(TRANSITION, PInt 7); ("cost", PInt 2)]))
              (Fork.at_state Fork.a) _ (@fork_unshadowed Fork.a) (Forall_nil _) eq_refl)
    as (first_state & next_state & key & d & h & data
        & Hu & Hk & Hd & Hf & Hn & _ & Hdata & Hedge & Hget & _).
  simpl in Hu, Hk. injection Hu as <- <-. injection Hk as <-.
  eexists. exists data, h. split; [reflexivity|].
  split; [exact Hedge|]. split; [exact Hget|]. split; assumption.
Defined.

(** C10 on the turnstile: a descriptor of length one among the two. *)
Lemma init_skips_malformed_descriptor_turnstile :
  List.length [Val (PStr "stray")] <> 2 /\
  List.length [Val (PStr "stray")] <> 3 /\
  __init__ (H := Turnstile.host)
    ([[Val (PStr "enter_coin"); Val (PTuple [Turnstile.locked; Turnstile.unlocked])]]
       ++ [Val (PStr "stray")]
       :: [[Val (PStr "push"); Val (PTuple [Turnstile.unlocked; Turnstile.locked]); Dict []]])
    Turnstile.locked []
  = __init__ (H := Turnstile.host)
      ([[Val (PStr "enter_coin"); Val (PTuple [Turnstile.locked; Turnstile.unlocked])]]
         ++ [[Val (PStr "push"); Val (PTuple [Turnstile.unlocked; Turnstile.locked]); Dict []]])
      Turnstile.locked [].
Proof.
  split; [simpl; lia|]. split; [simpl; lia|].
  apply (@init_skips_malformed_descriptor Turnstile.host); simpl; lia.
Defined.

(** ** The further properties at concrete automata *)

Lemma fork_targets_wf : targets_wf (adj (Fork.at_state Fork.a)).
Proof.
  apply (@loaded_targets_wf bare Fork.transitions [] Fork.a []
           (Fork.at_state Fork.a) (Fork.at_state Fork.a)); reflexivity.
Qed.


Lemma add_transition_appends_new_nodes_fork :
  exists self',
    add_transition (H := bare) (Val (PStr "stop")) (Val (PTuple [Fork.a; PStr "d"])) None
      (Fork.at_state Fork.a) = Ok self' /\
    nodes self' = [Fork.a; Fork.b; Fork.c; PStr "d"].
Proof.
  destruct (@add_transition_appends_new_nodes bare (Val (PStr "stop"))
              (Val (PTuple [Fork.a; PStr "d"])) None (Fork.at_state Fork.a) _ eq_refl)
    as (first_state & next_state & Hu & Hn & _).
  simpl in Hu. injection Hu as <- <-.
  eexists. split; [reflexivity|]. exact Hn.
Defined.

Lemma add_transition_keeps_other_edges_fork :
  exists self',
    add_transition (H := bare) (Val (PStr "stop")) (Val (PTuple [Fork.a; Fork.b])) None
      (Fork.at_state Fork.a) = Ok self' /\
    edge_data self' Fork.a Fork.b Fork.go
    = edge_data (Fork.at_state Fork.a) Fork.a Fork.b Fork.go.
Proof.
  destruct (@add_transition_keeps_other_edges bare (Val (PStr "stop"))
              (Val (PTuple [Fork.a; Fork.b])) None (Fork.at_state Fork.a) _ eq_refl)
    as (first_state & next_state & key & Hu & Hk & Hframe).
  simpl in Hu, Hk. injection Hu as <- <-. injection Hk as <-.
  eexists. split; [reflexivity|]. apply Hframe. discriminate.
Defined.

Lemma fork_priced :
  add_transition (H := bare) (Val Fork.go) (Val (PTuple [Fork.a; Fork.b]))
    (Some (Dict [("cost", PInt 2)])) (Fork.at_state Fork.a) = Ok Fork.priced.
Proof. reflexivity. Qed.


Lemma fork_data_wf : data_wf (adj (Fork.at_state Fork.a)).
Proof.
  apply (@loaded_data_wf bare Fork.transitions [] Fork.a []
           (Fork.at_state Fork.a) (Fork.at_state Fork.a)); reflexivity.
Qed.

Lemma add_transition_twice_fork :
  exists self2,
    add_transition (H := bare) (Val Fork.go) (Val (PTuple [Fork.a; Fork.b]))
      (Some (Dict [("cost", PInt 2)])) Fork.priced = Ok self2 /\
    current self2 = current Fork.priced /\
    __dict__ self2 = __dict__ Fork.priced /\
    nodes self2 = nodes Fork.priced /\
    forall u v k, edge_data self2 u v k = edge_data Fork.priced u v k.
Proof.
  apply (@add_transition_twice bare (Val Fork.go) (Val (PTuple [Fork.a; Fork.b]))
           (Some (Dict [("cost", PInt 2)])) (Fork.at_state Fork.a) Fork.priced).
  - reflexivity.
  - exact fork_data_wf.
Defined.

Lemma add_transition_rejects_other_symbols_fork :
  add_transition (H := bare) (Val (PInt 7)) (Val (PTuple [Fork.a; Fork.b])) None
    (Fork.at_state Fork.a) = Raise TypeError.
Proof.
  apply (@add_transition_rejects_other_symbols bare (Val (PInt 7))
           (Val (PTuple [Fork.a; Fork.b])) None (Fork.at_state Fork.a) (Fork.a, Fork.b)).
  - reflexivity.
  - reflexivity.
  - discriminate.
Defined.


Lemma name_of_registered_callable_binds_without_self_turnstile :
  exists self1 self2,
    add_transition (H := Turnstile.host) (Val (PFunc "slam" Turnstile.slam))
      (Val (PTuple [Turnstile.locked; Turnstile.broken])) (Some (Dict []))
      (Turnstile.at_state Turnstile.locked) = Ok self1 /\
    add_transition (H := Turnstile.host) (Val (PStr "slam"))
      (Val (PTuple [Turnstile.unlocked; Turnstile.broken])) None self1 = Ok self2 /\
    edge_handler self2 Turnstile.unlocked Turnstile.broken (PStr "slam")
    = Some (Handler (Partial (Function "slam" Turnstile.slam) false
                       Turnstile.unlocked Turnstile.broken)).
Proof.
  eexists. eexists.
  destruct (@name_of_registered_callable_binds_without_self Turnstile.host
              "slam" Turnstile.slam
              (Val (PTuple [Turnstile.locked; Turnstile.broken]))
              (Val (PTuple [Turnstile.unlocked; Turnstile.broken]))
              (Some (Dict [])) None (Turnstile.at_state Turnstile.locked) _ _
              eq_refl eq_refl)
    as (first_state & next_state & Hu & Hh).
  simpl in Hu. injection Hu as <- <-.
  split; [reflexivity|]. split; [reflexivity|]. exact Hh.
Defined.

Lemma callable_named_current_replaces_state_fork :
  exists self',
    add_transition (H := bare) (Val (PFunc "current" 5)) (Val (PTuple [Fork.a; Fork.b]))
      None (Fork.at_state Fork.a) = Ok self' /\
    current self' = PFunc "current" 5 /\
    __call__ (H := bare) Fork.go [] self' = Raised KeyError self' [].
Proof.
  destruct (@callable_named_current_replaces_state bare 5
              (Val (PTuple [Fork.a; Fork.b])) None (Fork.at_state Fork.a) _ eq_refl)
    as [Hc Hfire].
  eexists. split; [reflexivity|]. split; [exact Hc|].
  apply Hfire.
  - intros name Hn. simpl in Hn. congruence.
  - simpl. intros [E|[E|[E|[]]]]; discriminate.
  - reflexivity.
Defined.

Lemma registered_edges_are_bound_turnstile :
  exists self',
    load (H := Turnstile.host)
      [[Val (PFunc "slam" Turnstile.slam);
        Val (PTuple [Turnstile.locked; Turnstile.broken]); Dict []]]
      (Turnstile.at_state Turnstile.locked) = Ok self' /\
    edges_bound (adj self').
Proof.
  eexists. split; [reflexivity|].
  apply (@registered_edges_are_bound Turnstile.host Turnstile.transitions
           [[Val (PFunc "slam" Turnstile.slam);
             Val (PTuple [Turnstile.locked; Turnstile.broken]); Dict []]]
           Turnstile.locked [] (Turnstile.at_state Turnstile.locked)).
  - reflexivity.
  - simpl. repeat constructor; simpl; intuition discriminate.
  - reflexivity.
  - reflexivity.
Defined.

Lemma init_aborts_on_failing_descriptor_turnstile :
  __init__ (H := Turnstile.host)
    (Turnstile.transitions ++ [Val (PInt 7); Val (PTuple [Turnstile.locked; Turnstile.broken])]
       :: [[Val (PStr "push"); Val (PTuple [Turnstile.broken; Turnstile.locked])]])
    Turnstile.locked [] = Raise TypeError.
Proof.
  destruct (@init_aborts_on_failing_descriptor Turnstile.host Turnstile.transitions
              [[Val (PStr "push"); Val (PTuple [Turnstile.broken; Turnstile.locked])]]
              Turnstile.locked [] (Turnstile.at_state Turnstile.locked)
              (Val (PInt 7)) (Val (PTuple [Turnstile.locked; Turnstile.broken]))
              (Dict []) TypeError eq_refl) as [Habort _].
  apply Habort. reflexivity.
Defined.

Lemma fire_from_undeclared_state_raises_turnstile :
  __call__ (H := Turnstile.host) (PStr "push") [] (Turnstile.at_state (PStr "open"))
  = Raised KeyError (Turnstile.at_state (PStr "open")) [].
Proof.
  apply (@fire_from_undeclared_state_raises Turnstile.host Turnstile.transitions
           (PStr "open") []).
  - reflexivity.
  - reflexivity.
  - simpl. intros [E|[E|[E|[E|[]]]]]; discriminate.
  - simpl. tauto.
  - simpl. constructor.
  - reflexivity.
Defined.

Lemma fire_edge_without_handler_raises_fork :
  __call__ (H := bare) (PStr "jump") []
    (set_adj (Fork.at_state Fork.a) (add_edge Fork.a Fork.c (PStr "jump") [] Fork.graph))
  = Raised KeyError
      (set_adj (Fork.at_state Fork.a) (add_edge Fork.a Fork.c (PStr "jump") [] Fork.graph))
      [].
Proof.
  apply (@fire_edge_without_handler_raises bare _ (PStr "jump") []
           [(Fork.b, [(Fork.go, [(TRANSITION, Handler (default_partial Fork.a Fork.b))])])]
           [] Fork.c
           [(Fork.go, [(TRANSITION, Handler (default_partial Fork.a Fork.c))]);
            (PStr "jump", [])]
           []).
  - intros name Hn. simpl in Hn. congruence.
  - reflexivity.
  - reflexivity.
  - simpl. repeat constructor; simpl; intuition discriminate.
  - intros t' keys' [E|[]]. inversion E. reflexivity.
  - reflexivity.
  - reflexivity.
Defined.


Lemma fire_non_string_symbol_calls_nothing_fork :
  exists trace,
    __call__ (H := bare) (PInt 3) [] (Fork.at_state Fork.a)
    = Returned (Fork.at_state Fork.a) trace /\ calls trace = [].
Proof.
  apply (@fire_non_string_symbol_calls_nothing bare Fork.transitions [] Fork.a []
           (Fork.at_state Fork.a)).
  - reflexivity.
  - simpl. constructor.
  - reflexivity.
  - reflexivity.
  - simpl. auto.
  - discriminate.
  - reflexivity.
Defined.

Lemma fork_no_stop_edge (v : pyval) :
  graph_edge Fork.graph Fork.a v (PStr "stop") = None.
Proof.
  unfold graph_edge, graph_keys. simpl.
  destruct (eq_dec Fork.b v); [reflexivity|].
  destruct (eq_dec Fork.c v); reflexivity.
Qed.




Lemma fire_registered_default_fork :
  exists self',
    add_transition (H := bare) (Val (PStr "stop")) (Val (PTuple [Fork.a; Fork.b])) None
      (Fork.at_state Fork.a) = Ok self' /\
    __call__ (H := bare) (PStr "stop") [("speed", PInt 3)] (set_current self' Fork.a)
    = Returned (set_current self' Fork.b)
        [Called (Handler (default_partial Fork.a Fork.b)) [("speed", PInt 3)];
         Printed (Moving Fork.a Fork.b);
         Printed (Attributes [("speed", PInt 3)])].
Proof.
  pose proof (@fire_registered_default bare "stop" (Val (PTuple [Fork.a; Fork.b])) None
                (Fork.at_state Fork.a) _ Fork.a Fork.b [("speed", PInt 3)]
                (@fork_unshadowed Fork.a)
                eq_refl fork_targets_wf eq_refl eq_refl eq_refl eq_refl eq_refl
                (fun v _ => fork_no_stop_edge v)) as Hfire.
  eexists. split; [reflexivity|]. exact Hfire.
Defined.

Lemma add_transition_raise_keeps_edge_fork :
  exists self',
    add_transition_run (H := bare) (Val (PInt 7)) (Val (PTuple [Fork.a; PStr "d"]))
      (Some (Dict [("cost", PInt 2)])) (Fork.at_state Fork.a)
    = (self', Raise TypeError) /\
    nodes self' = [Fork.a; Fork.b; Fork.c; PStr "d"] /\
    edge_data self' Fork.a (PStr "d") (PInt 7) = Some [("cost", Value (PInt 2))] /\
    edge_handler self' Fork.a (PStr "d") (PInt 7) = None.
Proof.
  destruct (@add_transition_raise_keeps_edge bare (PInt 7)
              (Val (PTuple [Fork.a; PStr "d"])) (Some (Dict [("cost", PInt 2)]))
              (Fork.at_state Fork.a) Fork.a (PStr "d") [("cost", PInt 2)]
              (@fork_unshadowed Fork.a) eq_refl eq_refl eq_refl eq_refl)
    as (self' & Hrun & _ & _ & Hn & Hedge & _).
  - discriminate.
  - exists self'. split; [exact Hrun|]. split; [exact Hn|]. split; [exact Hedge|].
    unfold edge_handler. now rewrite Hedge.
Defined.

Lemma fire_rejects_keyword_named_after_parameter_fork :
  __call__ (H := bare) Fork.go [("coin_value", PInt 25); ("self", PInt 1)]
    (Fork.at_state Fork.a)
  = Raised TypeError (Fork.at_state Fork.a) [].
Proof.
  apply (@fire_rejects_keyword_named_after_parameter bare).
  left. simpl. auto.
Defined.
